(** * webscrape.py: extraction of student records from an HTML grade sheet

    A shallow embedding of [scrape_student_data] (src/webscrape.py) and of
    the library calls it makes: reading a text file under an encoding,
    BeautifulSoup's tree queries ([find_all], [find], [.text]), the
    compiled pattern [^msg\d+$], [str.strip], and [csv.DictWriter] over a
    UTF-8 text file.

    Python strings are sequences of code points ([list N]); bytes are
    [Byte.byte]; the file system is a finite map from paths to files;
    exceptions are values of [exception] carried by [result]. *)

From Stdlib Require Import NArith ZArith Lia String Ascii.
From Stdlib.Strings Require Import Byte.
From stdpp Require Import base list gmap strings pretty.

Abbreviation pystr := (list N).

(** A string literal of the source, as code points. *)
Definition py (s : string) : pystr := map N_of_ascii (list_ascii_of_string s).

(* ------------------------------------------------------------------ *)
(** ** Exceptions and results *)

Inductive exception :=
  | IndexError (msg : pystr)
  | UnicodeDecodeError (encoding : pystr) (byte : N)
  | UnicodeEncodeError (encoding : pystr) (char : N)
  | FileNotFoundError (path : string)
  | PermissionError (path : string).

(** [str(e)].  Only [IndexError] ever reaches the per-row handler, which
    is the one place that formats an exception; the texts of the others
    are abbreviated. *)
Definition exception_str (e : exception) : pystr :=
  match e with
  | IndexError msg => msg
  | UnicodeDecodeError enc b => py "'" ++ enc ++ py "' codec can't decode byte"
  | UnicodeEncodeError enc c => py "'" ++ enc ++ py "' codec can't encode character"
  | FileNotFoundError p => py "[Errno 2] No such file or directory: " ++ py p
  | PermissionError p => py "[Errno 13] Permission denied: " ++ py p
  end.

Inductive result (A : Type) :=
  | Ok (a : A)
  | Raise (e : exception).
Arguments Ok {A} a.
Arguments Raise {A} e.

(** Sequencing: an exception raised by [r] skips [k] ([x ← r; k x]). *)
#[global] Instance result_bind : MBind result := fun A B k r =>
  match r with
  | Ok a => k a
  | Raise e => Raise e
  end.

(** [l[i]] for a non-negative index into a Python list. *)
Definition getitem {A} (l : list A) (i : nat) : result A :=
  match l !! i with
  | Some x => Ok x
  | None => Raise (IndexError (py "list index out of range"))
  end.

(* ------------------------------------------------------------------ *)
(** ** Python strings: [str.isspace], [str.strip], [str.isdecimal] *)

Module PyStr.

(** The code points [str.isspace] accepts (CPython's
    [_Py_ascii_whitespace] and [_PyUnicode_IsWhitespace]). *)
Definition isspace (c : N) : bool :=
  ((9 <=? c) && (c <=? 13) || (28 <=? c) && (c <=? 32)
   || (c =? 133) || (c =? 160) || (c =? 5760)
   || (8192 <=? c) && (c <=? 8202)
   || (c =? 8232) || (c =? 8233) || (c =? 8239) || (c =? 8287)
   || (c =? 12288))%N.

Fixpoint lstrip (s : pystr) : pystr :=
  match s with
  | c :: s' => if isspace c then lstrip s' else s
  | [] => []
  end.

Definition rstrip (s : pystr) : pystr := reverse (lstrip (reverse s)).

(** [s.strip()]: the slice between the first and the last character
    that is not whitespace. *)
Definition strip (s : pystr) : pystr := rstrip (lstrip s).

(** First code point of every run of ten decimal digits (general
    category Nd, Unicode 15.0); [\d] in a str pattern accepts exactly
    the members of these runs. *)
Definition decimal_zeros : list N :=
  [ 0x30; 0x660; 0x6F0; 0x7C0; 0x966; 0x9E6; 0xA66; 0xAE6; 0xB66; 0xBE6;
    0xC66; 0xCE6; 0xD66; 0xDE6; 0xE50; 0xED0; 0xF20; 0x1040; 0x1090;
    0x17E0; 0x1810; 0x1946; 0x19D0; 0x1A80; 0x1A90; 0x1B50; 0x1BB0;
    0x1C40; 0x1C50; 0xA620; 0xA8D0; 0xA900; 0xA9D0; 0xA9F0; 0xAA50;
    0xABF0; 0xFF10; 0x104A0; 0x10D30; 0x11066; 0x110F0; 0x11136;
    0x111D0; 0x112F0; 0x11450; 0x114D0; 0x11650; 0x116C0; 0x11730;
    0x118E0; 0x11950; 0x11C50; 0x11D50; 0x11DA0; 0x11F50; 0x16A60;
    0x16AC0; 0x16B50; 0x1D7CE; 0x1D7D8; 0x1D7E2; 0x1D7EC; 0x1D7F6;
    0x1E140; 0x1E2F0; 0x1E4F0; 0x1E950; 0x1FBF0 ]%N.

Definition isdecimal (c : N) : bool :=
  existsb (fun z => (z <=? c) && (c <? z + 10))%N decimal_zeros.

(** [sep.join(l)] *)
Fixpoint join (sep : pystr) (l : list pystr) : pystr :=
  match l with
  | [] => []
  | [x] => x
  | x :: l' => x ++ sep ++ join sep l'
  end.

End PyStr.

(* ------------------------------------------------------------------ *)
(** ** Compiled patterns: the fragment of [re] the source uses *)

Module Re.

Inductive atom :=
  | Literal (c : N)        (* an ordinary character *)
  | CategoryDigit.         (* \d *)

Inductive item :=
  | AtBeginning            (* ^ *)
  | AtEnd                  (* $ *)
  | One (a : atom)
  | MaxRepeat1 (a : atom). (* a+ *)

Abbreviation pattern := (list item).

Definition atom_matches (a : atom) (c : N) : bool :=
  match a with
  | Literal d => (c =? d)%N
  | CategoryDigit => PyStr.isdecimal c
  end.

(** [$] without MULTILINE: at the end of the string, or just before a
    newline that is the last character. *)
Definition at_end (s : pystr) : bool :=
  match s with
  | [] => true
  | [c] => (c =? 10)%N
  | _ => false
  end.

(** [a+] followed by the rest of the pattern [k]: one [a], then either
    more of them (tried first) or the rest. *)
Fixpoint match_repeat (a : atom) (k : pystr -> bool) (s : pystr) : bool :=
  match s with
  | c :: s' => atom_matches a c && (match_repeat a k s' || k s')
  | [] => false
  end.

(** Backtracking match of [p] against a prefix of [s]; [at_start] says
    whether [s] is the whole subject string. *)
Fixpoint match_here (p : pattern) : bool -> pystr -> bool :=
  match p with
  | [] => fun _ _ => true
  | AtBeginning :: p' => fun at_start s => at_start && match_here p' at_start s
  | AtEnd :: p' => fun at_start s => at_end s && match_here p' at_start s
  | One a :: p' => fun _ s =>
      match s with
      | c :: s' => atom_matches a c && match_here p' false s'
      | [] => false
      end
  | MaxRepeat1 a :: p' => fun _ s => match_repeat a (match_here p' false) s
  end.

(** [p.search(s)]: a match starting at some position of [s]. *)
Fixpoint search_from (p : pattern) (at_start : bool) (s : pystr) : bool :=
  match_here p at_start s
  || match s with
     | _ :: s' => search_from p false s'
     | [] => false
     end.

Definition search (p : pattern) (s : pystr) : bool := search_from p true s.

(** [re.compile(r'^msg\d+$')] *)
Definition msg_digits : pattern :=
  [ AtBeginning; One (Literal 109); One (Literal 115); One (Literal 103);
    MaxRepeat1 CategoryDigit; AtEnd ]%N.

End Re.

(* ------------------------------------------------------------------ *)
(** ** The parsed document: BeautifulSoup's tree *)

Module Soup.

(** The classes of string nodes; [.text] keeps [NavigableString] and
    [CData] and leaves the others out. *)
Inductive string_type :=
  | NavigableString | CData | Comment | Declaration | Doctype
  | ProcessingInstruction | Script | Stylesheet | TemplateString.

(** An attribute value: a string, or for the multi-valued attributes
    ([class] among them) the list of its whitespace-separated tokens. *)
Inductive attr_value :=
  | AttrStr (s : pystr)
  | AttrList (tokens : list pystr).

#[warnings="-register-all"] Inductive PageElement :=
  | Str (ty : string_type) (s : pystr)
  | Tag (name : pystr) (attrs : gmap pystr attr_value)
        (contents : list PageElement).

(** [e.descendants]: every node below [e], in document order. *)
Fixpoint descendants (e : PageElement) : list PageElement :=
  match e with
  | Str _ _ => []
  | Tag _ _ contents =>
      (fix below (l : list PageElement) : list PageElement :=
         match l with
         | [] => []
         | c :: l' => c :: descendants c ++ below l'
         end) contents
  end.

Definition tag_name (e : PageElement) : option pystr :=
  match e with
  | Tag n _ _ => Some n
  | Str _ _ => None
  end.

Definition get (e : PageElement) (key : pystr) : option attr_value :=
  match e with
  | Tag _ attrs _ => attrs !! key
  | Str _ _ => None
  end.

(** What an attribute is matched against: a string or a compiled
    pattern. *)
Inductive criterion :=
  | Exactly (s : pystr)
  | Regex (p : Re.pattern).

Definition matches_string (markup : pystr) (c : criterion) : bool :=
  match c with
  | Exactly s => bool_decide (markup = s)
  | Regex p => Re.search p markup
  end.

(** [SoupStrainer._matches]: a missing attribute matches neither kind
    of criterion; a multi-valued attribute matches when one of its
    tokens does, or when the tokens joined by a space do. *)
Definition strainer_matches (v : option attr_value) (c : criterion) : bool :=
  match v with
  | None => false
  | Some (AttrStr s) => matches_string s c
  | Some (AttrList tokens) =>
      existsb (fun t => matches_string t c) tokens
      || matches_string (PyStr.join (py " ") tokens) c
  end.

(** [SoupStrainer.search_tag]: the tag name and every attribute
    criterion must match. *)
Definition search_tag (name : pystr) (attrs : list (pystr * criterion))
    (e : PageElement) : bool :=
  match e with
  | Str _ _ => false
  | Tag n _ _ =>
      bool_decide (n = name)
      && forallb (fun kc => strainer_matches (get e kc.1) kc.2) attrs
  end.

(** [e.find_all(name, **attrs)] *)
Definition find_all (name : pystr) (attrs : list (pystr * criterion))
    (e : PageElement) : list PageElement :=
  List.filter (search_tag name attrs) (descendants e).

(** [e.find(name)]: the first result of [find_all], or [None]. *)
Definition find (name : pystr) (e : PageElement) : option PageElement :=
  head (find_all name [] e).

Definition interesting (ty : string_type) : bool :=
  match ty with
  | NavigableString | CData => true
  | _ => false
  end.

Definition own_text (e : PageElement) : pystr :=
  match e with
  | Str ty s => if interesting ty then s else []
  | Tag _ _ _ => []
  end.

(** [e.text]: the interesting strings below [e], concatenated. *)
Definition text (e : PageElement) : pystr :=
  concat (map own_text (descendants e)).

End Soup.

(* ------------------------------------------------------------------ *)
(** ** Text files: encodings and the file system *)

Module Codec.

(** The two encodings the source reads with. *)
Inductive encoding := Windows1252 | Latin1.

(** Windows-1252, bytes 0x80 to 0x9F; [None] where Python's codec has
    no character (0x81, 0x8D, 0x8F, 0x90, 0x9D). *)
Definition cp1252_high : list (option N) :=
  [ Some 0x20AC; None;        Some 0x201A; Some 0x0192;
    Some 0x201E; Some 0x2026; Some 0x2020; Some 0x2021;
    Some 0x02C6; Some 0x2030; Some 0x0160; Some 0x2039;
    Some 0x0152; None;        Some 0x017D; None;
    None;        Some 0x2018; Some 0x2019; Some 0x201C;
    Some 0x201D; Some 0x2022; Some 0x2013; Some 0x2014;
    Some 0x02DC; Some 0x2122; Some 0x0161; Some 0x203A;
    Some 0x0153; None;        Some 0x017E; Some 0x0178 ]%N.

Definition cp1252_decode_byte (b : byte) : option N :=
  let n := Byte.to_N b in
  if ((n <? 0x80) || (0xA0 <=? n))%N then Some n
  else mjoin (cp1252_high !! N.to_nat (n - 0x80)).

Fixpoint cp1252_decode (bs : list byte) : result pystr :=
  match bs with
  | [] => Ok []
  | b :: bs' =>
      match cp1252_decode_byte b with
      | Some c => s ← cp1252_decode bs'; Ok (c :: s)
      | None => Raise (UnicodeDecodeError (py "charmap") (Byte.to_N b))
      end
  end.

(** Latin-1 maps every byte to the code point of the same number. *)
Definition latin1_decode (bs : list byte) : pystr := map Byte.to_N bs.

Definition byte_of_N (n : N) : byte := default x00 (Byte.of_N n).

Definition is_surrogate (c : N) : bool := ((0xD800 <=? c) && (c <=? 0xDFFF))%N.

(** UTF-8 of one code point; [None] for a surrogate (the strict error
    handler refuses it) and for a number that is no code point. *)
Definition utf8_encode_char (c : N) : option (list byte) :=
  if (c <? 0x80)%N then Some [byte_of_N c]
  else if (c <? 0x800)%N then
    Some [byte_of_N (0xC0 + c / 64); byte_of_N (0x80 + c mod 64)]
  else if (c <? 0x10000)%N then
    if is_surrogate c then None
    else Some [byte_of_N (0xE0 + c / 4096);
               byte_of_N (0x80 + (c / 64) mod 64);
               byte_of_N (0x80 + c mod 64)]
  else if (c <? 0x110000)%N then
    Some [byte_of_N (0xF0 + c / 262144);
          byte_of_N (0x80 + (c / 4096) mod 64);
          byte_of_N (0x80 + (c / 64) mod 64);
          byte_of_N (0x80 + c mod 64)]
  else None.

Fixpoint utf8_encode (s : pystr) : result (list byte) :=
  match s with
  | [] => Ok []
  | c :: s' =>
      match utf8_encode_char c with
      | Some bs => rest ← utf8_encode s'; Ok (bs ++ rest)
      | None => Raise (UnicodeEncodeError (py "utf-8") c)
      end
  end.

(** Universal newlines on reading ([newline=None]): CR LF and a lone
    CR both become LF. *)
Fixpoint translate_newlines (s : pystr) : pystr :=
  match s with
  | [] => []
  | c :: s' =>
      if (c =? 13)%N then
        10%N :: match s' with
                | d :: s'' =>
                    if (d =? 10)%N then translate_newlines s''
                    else translate_newlines s'
                | [] => []
                end
      else c :: translate_newlines s'
  end.

Definition decode (enc : encoding) (bs : list byte) : result pystr :=
  match enc with
  | Windows1252 => cp1252_decode bs
  | Latin1 => Ok (latin1_decode bs)
  end.

End Codec.

Module FS.

Record file := File { readable : bool; writable : bool; data : list byte }.

Abbreviation filesystem := (gmap string file).

(** [open(path, 'r', encoding=enc)] followed by [file.read()]. *)
Definition read (fs : filesystem) (path : string) (enc : Codec.encoding)
    : result pystr :=
  match fs !! path with
  | None => Raise (FileNotFoundError path)
  | Some f =>
      if readable f then
        s ← Codec.decode enc (data f); Ok (Codec.translate_newlines s)
      else Raise (PermissionError path)
  end.

(** [open(path, 'w')]: the file is created, or emptied when it exists. *)
Definition open_w (fs : filesystem) (path : string) : result filesystem :=
  match fs !! path with
  | None => Ok (<[path := File true true []]> fs)
  | Some f =>
      if writable f then Ok (<[path := File (readable f) true []]> fs)
      else Raise (PermissionError path)
  end.

(** The bytes a write appends to the open file. *)
Definition append (fs : filesystem) (path : string) (bs : list byte)
    : filesystem :=
  match fs !! path with
  | Some f => <[path := File (readable f) (writable f) (data f ++ bs)]> fs
  | None => fs
  end.

End FS.

(* ------------------------------------------------------------------ *)
(** ** [csv.DictWriter] with the default (excel) dialect *)

Module Csv.

(** Characters that make QUOTE_MINIMAL quote a field: the delimiter,
    the quote character, and the characters of the line terminator. *)
Definition special (c : N) : bool :=
  ((c =? 44) || (c =? 34) || (c =? 13) || (c =? 10))%N.

Definition escape (c : N) : pystr :=
  if (c =? 34)%N then [34; 34]%N else [c].

Definition quote_field (f : pystr) : pystr :=
  if existsb special f then [34%N] ++ flat_map escape f ++ [34%N] else f.

(** One record: the fields joined by commas and ended by CR LF; a
    record that is a single empty field is written as two quotes. *)
Definition format_row (fields : list pystr) : pystr :=
  match fields with
  | [ [] ] => [34; 34; 13; 10]%N
  | _ => PyStr.join [44%N] (map quote_field fields) ++ [13; 10]%N
  end.

End Csv.

(* ------------------------------------------------------------------ *)
(** ** The scraper: [scrape_student_data] *)

(** The dict appended to [students]: its four keys are fixed. *)
Record student := Student {
  student_id : pystr;      (* 'Student ID' *)
  student_name : pystr;    (* 'Student Name' *)
  course : pystr;          (* 'Course' *)
  year : pystr             (* 'Year' *)
}.

Definition fieldnames : list pystr :=
  [py "Student ID"; py "Student Name"; py "Course"; py "Year"].

(** [DictWriter._dict_to_list]: the values in the order of [fieldnames]. *)
Definition row_values (s : student) : list pystr :=
  [student_id s; student_name s; course s; year s].

(** The keyword arguments of line 34: [class_='nav'] and
    [id=re.compile(r'^msg\d+$')]. *)
Definition row_attrs : list (pystr * Soup.criterion) :=
  [ (py "class", Soup.Exactly (py "nav"));
    (py "id", Soup.Regex Re.msg_digits) ].

(** The row selection of line 34. *)
Definition student_rows (soup : Soup.PageElement) : list Soup.PageElement :=
  Soup.find_all (py "tr") row_attrs soup.

(** [x = cell.find('font'); x.text.strip() if x else ''] (a tag is
    truthy, so the test is [x is not None]). *)
Definition font_text (cell : Soup.PageElement) : pystr :=
  match Soup.find (py "font") cell with
  | Some x => PyStr.strip (Soup.text x)
  | None => []
  end.

(** [row.find_all('td')] *)
Definition cells_of (row : Soup.PageElement) : list Soup.PageElement :=
  Soup.find_all (py "td") [] row.

(** Lines 43 to 59: the cells of the row and the four field values. *)
Definition extract_fields (row : Soup.PageElement) : result student :=
  let cells := cells_of row in
  student_id_cell ← getitem cells 1;
  student_name_cell ← getitem cells 2;
  course_cell ← getitem cells 3;
  year_cell ← getitem cells 4;
  Ok (Student (font_text student_id_cell) (font_text student_name_cell)
        (font_text course_cell) (font_text year_cell)).

(** The body of the [try]: the record is appended when its ID is a
    non-empty string. *)
Definition try_row (students : list student) (row : Soup.PageElement)
    : result (list student) :=
  s ← extract_fields row;
  Ok (if bool_decide (student_id s = []) then students else students ++ [s]).

Definition row_error (e : exception) : pystr :=
  py "Error processing row: " ++ exception_str e.

(** One iteration of the loop over [student_rows]; the state is the list
    [students] and what has been printed so far. *)
Definition loop_body (st : list student * list pystr)
    (row : Soup.PageElement) : list student * list pystr :=
  match try_row st.1 row with
  | Ok students => (students, st.2)
  | Raise e => (st.1, st.2 ++ [row_error e])
  end.

Definition extract_rows (rows : list Soup.PageElement)
    (st : list student * list pystr) : list student * list pystr :=
  foldl loop_body st rows.

Definition no_data : pystr := py "No student data found in the HTML file".

(** Lines 22 to 28, with the encodings of the [open] calls it makes. *)
Definition read_html (fs : FS.filesystem) (html_file_path : string)
    : list Codec.encoding * result pystr :=
  match FS.read fs html_file_path Codec.Windows1252 with
  | Raise (UnicodeDecodeError _ _) =>
      ([Codec.Windows1252; Codec.Latin1],
       FS.read fs html_file_path Codec.Latin1)
  | r => ([Codec.Windows1252], r)
  end.

(** The calls of [csvfile.write] made by [writeheader] and [writerow]:
    each line is encoded on its own, and the first line that cannot be
    encoded ends the writes with its exception. *)
Fixpoint write_lines (fs : FS.filesystem) (path : string) (lines : list pystr)
    : FS.filesystem * option exception :=
  match lines with
  | [] => (fs, None)
  | l :: lines' =>
      match Codec.utf8_encode l with
      | Ok bs => write_lines (FS.append fs path bs) path lines'
      | Raise e => (fs, Some e)
      end
  end.

(** What those writes put in the file: the bytes of the lines before the
    first one that cannot be encoded, and that line's exception. *)
Fixpoint encoded (lines : list pystr) : list byte * option exception :=
  match lines with
  | [] => ([], None)
  | l :: lines' =>
      match Codec.utf8_encode l with
      | Ok bs => (bs ++ (encoded lines').1, (encoded lines').2)
      | Raise e => ([], Some e)
      end
  end.

Definition csv_lines (students : list student) : list pystr :=
  Csv.format_row fieldnames :: map (fun s => Csv.format_row (row_values s)) students.

Definition decimal (n : nat) : pystr := py (pretty n).

Definition preview_line (i : nat) (s : student) : pystr :=
  decimal i ++ py ". " ++ student_id s ++ py " | " ++ student_name s
  ++ py " | " ++ course s ++ py " | Year " ++ year s.

(** Lines 87 to 96. *)
Definition report (students : list student) (output_csv_path : string)
    : list pystr :=
  [ py "Successfully scraped " ++ decimal (length students) ++ py " students";
    py "Data saved to: " ++ py output_csv_path;
    10%N :: py "Preview of extracted data:";
    concat (replicate 80 (py "-")) ]
  ++ imap (fun i s => preview_line (S i) s) (take 5 students)
  ++ (if bool_decide (5 < length students)%nat
      then [py "... and " ++ decimal (length students - 5) ++ py " more students"]
      else []).

Record world := World { fs : FS.filesystem; stdout : list pystr }.

Section Scraper.

(** [BeautifulSoup(html_content, 'html.parser')]: the parser is the
    library's; the scraper is modelled for any parser. *)
Variable parse : pystr -> Soup.PageElement.

(** The function of the source: the world it leaves, and the exception
    it raises if it does not return. *)
Definition scrape_student_data (html_file_path output_csv_path : string)
    (w : world) : world * option exception :=
  match (read_html (fs w) html_file_path).2 with
  | Raise e => (w, Some e)
  | Ok html_content =>
      let soup := parse html_content in
      let st := extract_rows (student_rows soup) ([], stdout w) in
      let students := st.1 in
      match students with
      | [] => (World (fs w) (st.2 ++ [no_data]), None)
      | _ :: _ =>
          match FS.open_w (fs w) output_csv_path with
          | Raise e => (World (fs w) st.2, Some e)
          | Ok fs1 =>
              match write_lines fs1 output_csv_path (csv_lines students) with
              | (fs2, Some e) => (World fs2 st.2, Some e)
              | (fs2, None) =>
                  (World fs2 (st.2 ++ report students output_csv_path), None)
              end
          end
      end
  end.

(** The [__main__] block. *)
Definition main (w : world) : world * option exception :=
  let input_html := "faculty_acad_contentFrame.html"%string in
  let output_csv := "students_data.csv"%string in
  scrape_student_data input_html output_csv
    (World (fs w)
       (stdout w ++ [ py "Reading HTML file: " ++ py input_html;
                      py "Output CSV file: " ++ py output_csv;
                      concat (replicate 80 (py "-")) ])).

End Scraper.

(* ------------------------------------------------------------------ *)
(** ** Reading the output back *)

Module Reread.

(** A continuation byte, 10xxxxxx, and the six bits it carries. *)
Definition continuation (b : byte) : bool :=
  ((0x80 <=? Byte.to_N b) && (Byte.to_N b <? 0xC0))%N.

Definition low6 (b : byte) : N := (Byte.to_N b - 0x80)%N.

(** Modelled from the spec: the decoding of the output file's
    "universal text encoding" (UTF-8), which the repository only
    writes.  A strict decoder: shortest forms only, no surrogates,
    nothing above U+10FFFF. *)
Fixpoint utf8_decode (bs : list byte) : option pystr :=
  match bs with
  | [] => Some []
  | b1 :: r1 =>
      let n1 := Byte.to_N b1 in
      if (n1 <? 0x80)%N then cons n1 <$> utf8_decode r1
      else if (n1 <? 0xC2)%N then None
      else if (n1 <? 0xE0)%N then
        match r1 with
        | b2 :: r2 =>
            let c := ((n1 - 0xC0) * 64 + low6 b2)%N in
            if continuation b2 then cons c <$> utf8_decode r2 else None
        | _ => None
        end
      else if (n1 <? 0xF0)%N then
        match r1 with
        | b2 :: b3 :: r3 =>
            let c := ((n1 - 0xE0) * 4096 + low6 b2 * 64 + low6 b3)%N in
            if continuation b2 && continuation b3 && (0x800 <=? c)%N
               && negb (Codec.is_surrogate c)
            then cons c <$> utf8_decode r3 else None
        | _ => None
        end
      else if (n1 <? 0xF5)%N then
        match r1 with
        | b2 :: b3 :: b4 :: r4 =>
            let c := ((n1 - 0xF0) * 262144 + low6 b2 * 4096
                      + low6 b3 * 64 + low6 b4)%N in
            if continuation b2 && continuation b3 && continuation b4
               && (0x10000 <=? c)%N && (c <? 0x110000)%N
            then cons c <$> utf8_decode r4 else None
        | _ => None
        end
      else None
  end.

(** The states of the reader of the delimited text. *)
Inductive mode :=
  | StartRecord          (* at the start of a line *)
  | AfterCR              (* a CR has just ended a record *)
  | StartField
  | InField
  | InQuotedField
  | QuoteInQuotedField.  (* a quote seen inside a quoted field *)

Record reader := Reader {
  state : mode;
  field : pystr;                 (* the field being read *)
  fields : list pystr;           (* the fields of the record so far *)
  records : list (list pystr)    (* the records finished so far *)
}.

Definition add_char (r : reader) (c : N) (m : mode) : reader :=
  Reader m (field r ++ [c]) (fields r) (records r).

Definition save_field (r : reader) : reader :=
  Reader StartField [] (fields r ++ [field r]) (records r).

(** The line end [c] closes the current field and record. *)
Definition end_record (r : reader) (c : N) : reader :=
  Reader (if (c =? 13)%N then AfterCR else StartRecord) [] []
    (records r ++ [fields r ++ [field r]]).

Definition is_eol (c : N) : bool := ((c =? 13) || (c =? 10))%N.

Definition start_field (r : reader) (c : N) : reader :=
  if is_eol c then end_record r c
  else if (c =? 34)%N then Reader InQuotedField [] (fields r) (records r)
  else if (c =? 44)%N then save_field r
  else add_char r c InField.

(** Modelled from the spec: the "re-parsing" of the delimited output,
    which is not in the repository.  One character of a reader for the
    format of section 6: records end at CR LF, CR or LF outside quotes,
    fields are separated by commas, a field that starts with a quote
    runs to the closing quote, and a doubled quote inside it is one
    quote. *)
Definition step (r : reader) (c : N) : reader :=
  match state r with
  | StartRecord =>
      if is_eol c then
        Reader (if (c =? 13)%N then AfterCR else StartRecord) [] []
          (records r ++ [[]])
      else start_field r c
  | AfterCR =>
      if (c =? 10)%N then Reader StartRecord [] [] (records r)
      else if (c =? 13)%N then Reader AfterCR [] [] (records r ++ [[]])
      else start_field r c
  | StartField => start_field r c
  | InField =>
      if is_eol c then end_record r c
      else if (c =? 44)%N then save_field r
      else add_char r c InField
  | InQuotedField =>
      if (c =? 34)%N then
        Reader QuoteInQuotedField (field r) (fields r) (records r)
      else add_char r c InQuotedField
  | QuoteInQuotedField =>
      if (c =? 34)%N then add_char r c InQuotedField
      else if (c =? 44)%N then save_field r
      else if is_eol c then end_record r c
      else add_char r c InField
  end.

(** At the end of the text a record that was begun is finished. *)
Definition finish (r : reader) : list (list pystr) :=
  match state r with
  | StartRecord | AfterCR => records r
  | _ => records r ++ [fields r ++ [field r]]
  end.

Definition run (text : pystr) (r : reader) : reader := foldl step r text.

(** Modelled from the spec: the records read back from a delimited
    text, the reader of [step] run over all of it. *)
Definition csv_read (text : pystr) : list (list pystr) :=
  finish (run text (Reader StartRecord [] [] [])).

(** The records of a file: its bytes decoded, then read. *)
Definition read_file (f : FS.file) : option (list (list pystr)) :=
  csv_read <$> utf8_decode (FS.data f).

End Reread.

(* ------------------------------------------------------------------ *)
(** ** The properties in the words of the specification *)

(** [v] is [s] without its leading and trailing whitespace. *)
Definition trimmed (s v : pystr) : Prop :=
  ∃ l r, s = l ++ v ++ r
    ∧ forallb PyStr.isspace l = true ∧ forallb PyStr.isspace r = true
    ∧ (∀ c, head v = Some c → PyStr.isspace c = false)
    ∧ (∀ c, last v = Some c → PyStr.isspace c = false).

Definition is_tag (name : pystr) (e : Soup.PageElement) : Prop :=
  Soup.tag_name e = Some name.

(** [x] is the first element named [name] below [e], in document order. *)
Definition first_nested (name : pystr) (e x : Soup.PageElement) : Prop :=
  ∃ before after, Soup.descendants e = before ++ x :: after
    ∧ is_tag name x ∧ Forall (fun y => ¬ is_tag name y) before.

(** The value of a field taken from [cell]: the trimmed text of the first
    nested font element, and the empty string when there is none. *)
Definition field_value (cell : Soup.PageElement) (v : pystr) : Prop :=
  (∃ x, first_nested (py "font") cell x ∧ trimmed (Soup.text x) v)
  ∨ (Forall (fun y => ¬ is_tag (py "font") y) (Soup.descendants cell) ∧ v = []).

(** The Student ID field of a row: the field value of its second cell. *)
Definition has_student_id (row : Soup.PageElement) : Prop :=
  ∃ cell, cells_of row !! 1%nat = Some cell ∧ PyStr.strip (font_text cell) ≠ [].

(** The attribute value, or one of its values when the attribute is
    multi-valued, satisfies [P]. *)
Definition attr_has (v : option Soup.attr_value) (P : pystr → Prop) : Prop :=
  match v with
  | Some (Soup.AttrStr s) => P s
  | Some (Soup.AttrList tokens) => Exists P tokens
  | None => False
  end.

(** The attribute is present with exactly the value [s]. *)
Definition attr_is (v : option Soup.attr_value) (s : pystr) : Prop :=
  v = Some (Soup.AttrStr s) ∨ v = Some (Soup.AttrList [s]).

(** [msg] followed by one or more decimal digits and nothing else. *)
Definition msg_number (s : pystr) : Prop :=
  ∃ digits, digits ≠ [] ∧ forallb PyStr.isdecimal digits = true
    ∧ s = py "msg" ++ digits.

(** What the compiled pattern accepts: as [msg_number], with one final
    newline allowed after the digits. *)
Definition msg_number_nl (s : pystr) : Prop :=
  msg_number s ∨ ∃ s', msg_number s' ∧ s = s' ++ [10%N].

(** One or more decimal digits, then the end of the string or a final
    newline: what remains to match after [msg]. *)
Definition digits_then_end (s : pystr) : Prop :=
  ∃ digits tail, digits ≠ [] ∧ forallb PyStr.isdecimal digits = true
    ∧ s = digits ++ tail ∧ (tail = [] ∨ tail = [10%N]).

(** The signature of a selected row: a [tr] with [nav] among its
    classes and an id the pattern accepts. *)
Definition selected (e : Soup.PageElement) : Prop :=
  is_tag (py "tr") e
  ∧ attr_has (Soup.get e (py "class")) (fun s => s = py "nav")
  ∧ attr_has (Soup.get e (py "id")) msg_number_nl.

(** A row that has its five cells and a Student ID. *)
Definition qualifies (row : Soup.PageElement) : bool :=
  bool_decide (5 ≤ length (cells_of row))%nat
  && match cells_of row !! 1%nat with
     | Some cell => negb (bool_decide (PyStr.strip (font_text cell) = []))
     | None => false
     end.

Definition is_IndexError (e : exception) : Prop :=
  match e with IndexError _ => True | _ => False end.

(** No code point of [s] is refused by the UTF-8 encoder. *)
Definition encodable (s : pystr) : Prop :=
  Forall (fun c => (c < 0x110000)%N ∧ Codec.is_surrogate c = false) s.

(* ------------------------------------------------------------------ *)
(** ** Sample documents *)

Module Sample.

Definition font (s : string) : Soup.PageElement :=
  Soup.Tag (py "font") ∅ [Soup.Str Soup.NavigableString (py s)].

Definition td (s : string) : Soup.PageElement :=
  Soup.Tag (py "td") ∅ [font s].

Definition tr (class : list string) (id : string)
    (cells : list Soup.PageElement) : Soup.PageElement :=
  Soup.Tag (py "tr")
    {[ py "class" := Soup.AttrList (map py class);
       py "id" := Soup.AttrStr (py id) ]} cells.

(** The row of the scenario in section 8. *)
Definition jane : Soup.PageElement :=
  tr ["nav"] "msg1"
     [td "1"; td " 12345 "; td "Jane Doe"; td "CS101"; td "2024"].

(** A row of three cells whose second cell holds an ID. *)
Definition short : Soup.PageElement :=
  tr ["nav"] "msg2" [td "2"; td "67890"; td "John Roe"].

(** Five cells, the ID cell holding only whitespace. *)
Definition blank : Soup.PageElement :=
  tr ["nav"] "msg3" [td "3"; td "   "; td "No Body"; td "CS102"; td "2023"].

(** A row with a second class, and one whose id ends in a newline. *)
Definition two_classes : Soup.PageElement :=
  tr ["nav"; "odd"] "msg4"
     [td "4"; td "24680"; td "Ann Poe"; td "CS103"; td "2022"].

Definition id_newline : Soup.PageElement :=
  Soup.Tag (py "tr")
    {[ py "class" := Soup.AttrList [py "nav"];
       py "id" := Soup.AttrStr (py "msg5" ++ [10%N]) ]}
    [td "5"; td "13579"; td "Sam Low"; td "CS104"; td "2021"].

Definition document (rows : list Soup.PageElement) : Soup.PageElement :=
  Soup.Tag (py "[document]") ∅
    [Soup.Tag (py "html") ∅ [Soup.Tag (py "table") ∅ rows]].

Definition page : Soup.PageElement := document [jane; short; blank].

Definition html_bytes : list byte := [x3c; x74; x72; x3e].

Definition files : FS.filesystem :=
  {[ "in.html"%string := FS.File true true html_bytes ]}.

(** A record whose ID is a lone surrogate, as [chr(0xD800)] gives. *)
Definition surrogate_id : student := Student [0xD800%N] [] [] [].

Definition with_comma : student :=
  Student (py "12345") (py "Doe, " ++ [34%N] ++ py "JD" ++ [34%N] ++ py " Jane")
    (py "CS101") (py "2024").

End Sample.

(* ------------------------------------------------------------------ *)
(** ** A nested table, and the outcome of a run *)

Module Nested.

(** A row inside a cell of another row, as a table nested in a table. *)
Definition inner : Soup.PageElement :=
  Soup.Tag (py "tr") ∅ [Sample.td "a"; Sample.td "b"].

Definition outer : Soup.PageElement :=
  Sample.tr ["nav"] "msg6"
    [ Sample.td "6";
      Soup.Tag (py "td") ∅ [Soup.Tag (py "table") ∅ [inner]];
      Sample.td "Kim Yoe"; Sample.td "CS105"; Sample.td "2020" ].

End Nested.

(** The outcome of a run once [html] has been read: [scrape_student_data]
    with the loop started from an empty output, the file written in one
    step and the state of the output file spelled out. *)
Definition run_outcome (parse : pystr → Soup.PageElement)
    (html : pystr) (o : string) (w : world) : world * option exception :=
  let st := extract_rows (student_rows (parse html)) ([], []) in
  match st.1 with
  | [] => (World (fs w) (stdout w ++ st.2 ++ [no_data]), None)
  | _ :: _ =>
      match FS.open_w (fs w) o with
      | Raise e => (World (fs w) (stdout w ++ st.2), Some e)
      | Ok _ =>
          (World (<[o := FS.File (from_option FS.readable true (fs w !! o)) true
                           (encoded (csv_lines st.1)).1]> (fs w))
             (stdout w ++ st.2
              ++ match (encoded (csv_lines st.1)).2 with
                 | None => report st.1 o
                 | Some _ => []
                 end),
           (encoded (csv_lines st.1)).2)
      end
  end.

(* ------------------------------------------------------------------ *)
(** * Proofs *)

(** ** Strings *)

Lemma lstrip_split (s : pystr) :
  ∃ l, s = l ++ PyStr.lstrip s ∧ forallb PyStr.isspace l = true.
Proof.
  induction s as [|c s [l [Hs Hl]]]; [by exists []|].
  simpl. destruct (PyStr.isspace c) eqn:Hc.
  - exists (c :: l). simpl. rewrite Hc, Hl. by rewrite <- Hs.
  - by exists [].
Qed.

Lemma lstrip_head (s : pystr) (c : N) :
  head (PyStr.lstrip s) = Some c → PyStr.isspace c = false.
Proof.
  induction s as [|d s IH]; simpl; [done|].
  destruct (PyStr.isspace d) eqn:Hd; [done|].
  simpl. by intros [= ->].
Qed.

Lemma lstrip_fixed (s : pystr) :
  (∀ c, head s = Some c → PyStr.isspace c = false) → PyStr.lstrip s = s.
Proof. destruct s as [|c s]; simpl; [done|]. intros H. by rewrite (H c). Qed.

Lemma forallb_reverse {A} (f : A → bool) (l : list A) :
  forallb f (reverse l) = forallb f l.
Proof.
  induction l as [|x l IH]; [done|].
  rewrite reverse_cons, forallb_app, IH. simpl. destruct (f x), (forallb f l); done.
Qed.

Lemma head_reverse {A} (l : list A) : head (reverse l) = last l.
Proof.
  induction l as [|x l IH] using rev_ind; [done|].
  by rewrite reverse_snoc, last_snoc.
Qed.

Lemma strip_trimmed (s : pystr) : trimmed s (PyStr.strip s).
Proof.
  unfold trimmed, PyStr.strip, PyStr.rstrip.
  destruct (lstrip_split s) as [l [Hs Hl]].
  destruct (lstrip_split (reverse (PyStr.lstrip s))) as [r [Ht Hr]].
  set (t := PyStr.lstrip s) in *.
  set (v := reverse (PyStr.lstrip (reverse t))).
  assert (Htv : t = v ++ reverse r).
  { unfold v. rewrite <- reverse_app, <- Ht. by rewrite reverse_involutive. }
  exists l, (reverse r). repeat split.
  - by rewrite <- Htv.
  - done.
  - by rewrite forallb_reverse.
  - intros c Hc. apply (lstrip_head s). fold t. rewrite Htv.
    destruct v; [done|]. done.
  - intros c Hc. apply (lstrip_head (reverse t)).
    by rewrite <- (reverse_involutive (PyStr.lstrip (reverse t))), head_reverse.
Qed.

Lemma strip_fixed (v : pystr) :
  (∀ c, head v = Some c → PyStr.isspace c = false) →
  (∀ c, last v = Some c → PyStr.isspace c = false) →
  PyStr.strip v = v.
Proof.
  intros Hh Hl. unfold PyStr.strip, PyStr.rstrip.
  rewrite (lstrip_fixed v Hh), lstrip_fixed, reverse_involutive; [done|].
  intros c. rewrite head_reverse. apply Hl.
Qed.

Lemma strip_idemp (s : pystr) : PyStr.strip (PyStr.strip s) = PyStr.strip s.
Proof.
  destruct (strip_trimmed s) as (l & r & _ & _ & _ & Hh & Hl).
  by apply strip_fixed.
Qed.

(** ** The loop over the rows *)

Lemma getitem_Some {A} (l : list A) (i : nat) :
  (i < length l)%nat → ∃ x, l !! i = Some x ∧ getitem l i = Ok x.
Proof.
  intros H. destruct (lookup_lt_is_Some_2 l i H) as [x Hx].
  exists x. unfold getitem. by rewrite Hx.
Qed.

Lemma getitem_None {A} (l : list A) (i : nat) :
  (length l ≤ i)%nat →
  getitem l i = Raise (IndexError (py "list index out of range")).
Proof. intros H. unfold getitem. by rewrite (lookup_ge_None_2 l i H). Qed.

Lemma extract_fields_Ok (row : Soup.PageElement) :
  (5 ≤ length (cells_of row))%nat →
  ∃ c1 c2 c3 c4,
    cells_of row !! 1%nat = Some c1 ∧ cells_of row !! 2%nat = Some c2
    ∧ cells_of row !! 3%nat = Some c3 ∧ cells_of row !! 4%nat = Some c4
    ∧ extract_fields row
      = Ok (Student (font_text c1) (font_text c2) (font_text c3) (font_text c4)).
Proof.
  intros H. unfold extract_fields.
  destruct (getitem_Some (cells_of row) 1) as (c1 & H1 & G1); [lia|].
  destruct (getitem_Some (cells_of row) 2) as (c2 & H2 & G2); [lia|].
  destruct (getitem_Some (cells_of row) 3) as (c3 & H3 & G3); [lia|].
  destruct (getitem_Some (cells_of row) 4) as (c4 & H4 & G4); [lia|].
  exists c1, c2, c3, c4. simpl. rewrite G1, G2, G3, G4. done.
Qed.

Lemma extract_fields_Raise (row : Soup.PageElement) :
  (length (cells_of row) < 5)%nat →
  extract_fields row = Raise (IndexError (py "list index out of range")).
Proof.
  intros H. unfold extract_fields. simpl.
  destruct (cells_of row) as [|c0 [|c1 [|c2 [|c3 [|c4 l]]]]]; simpl in *; try done.
  lia.
Qed.

(** ** Tree queries *)

Lemma search_tag_name (name : pystr) (e : Soup.PageElement) :
  Soup.search_tag name [] e = true ↔ is_tag name e.
Proof.
  unfold is_tag. destruct e as [ty s|n a cs]; simpl; [done|].
  rewrite andb_true_r, bool_decide_eq_true. split; [by intros ->|by intros [= ->]].
Qed.

Lemma head_filter_Some {A} (f : A → bool) (l : list A) (x : A) :
  head (List.filter f l) = Some x →
  ∃ before after, l = before ++ x :: after ∧ f x = true
    ∧ Forall (fun y => f y = false) before.
Proof.
  induction l as [|y l IH]; simpl; [done|].
  destruct (f y) eqn:Hy; simpl.
  - intros [= ->]. by exists [], l.
  - intros H. destruct (IH H) as (b & a & -> & Hx & Hb).
    exists (y :: b), a. repeat split; [done|]. by constructor.
Qed.

Lemma head_filter_None {A} (f : A → bool) (l : list A) :
  head (List.filter f l) = None → Forall (fun y => f y = false) l.
Proof.
  induction l as [|y l IH]; simpl; [by constructor|].
  destruct (f y) eqn:Hy; simpl; [done|]. intros H. constructor; auto.
Qed.

Lemma not_tag_of_false (name : pystr) (l : list Soup.PageElement) :
  Forall (fun y => Soup.search_tag name [] y = false) l →
  Forall (fun y => ¬ is_tag name y) l.
Proof.
  intros H. eapply Forall_impl; [exact H|].
  intros y Hy Ht. apply search_tag_name in Ht. congruence.
Qed.

Lemma find_Some (name : pystr) (e x : Soup.PageElement) :
  Soup.find name e = Some x → first_nested name e x.
Proof.
  intros H. destruct (head_filter_Some _ _ _ H) as (b & a & Hd & Hx & Hb).
  exists b, a. split; [done|]. split; [by apply search_tag_name|].
  by apply not_tag_of_false.
Qed.

Lemma find_None (name : pystr) (e : Soup.PageElement) :
  Soup.find name e = None →
  Forall (fun y => ¬ is_tag name y) (Soup.descendants e).
Proof. intros H. by apply not_tag_of_false, head_filter_None. Qed.

Lemma font_text_field_value (cell : Soup.PageElement) :
  field_value cell (font_text cell).
Proof.
  unfold field_value, font_text.
  destruct (Soup.find (py "font") cell) as [x|] eqn:Hf.
  - left. exists x. split; [by apply find_Some|apply strip_trimmed].
  - right. split; [by apply find_None|done].
Qed.

Lemma font_text_stripped (cell : Soup.PageElement) :
  PyStr.strip (font_text cell) = font_text cell.
Proof.
  unfold font_text. destruct (Soup.find _ cell); [apply strip_idemp|done].
Qed.

(** ** The loop *)

Lemma loop_body_Ok (st : list student * list pystr) (row : Soup.PageElement)
    (s : student) :
  extract_fields row = Ok s →
  loop_body st row
  = (if bool_decide (student_id s = []) then st.1 else st.1 ++ [s], st.2).
Proof. intros H. unfold loop_body, try_row. rewrite H. done. Qed.

Lemma loop_body_Raise (st : list student * list pystr)
    (row : Soup.PageElement) (e : exception) :
  extract_fields row = Raise e →
  loop_body st row = (st.1, st.2 ++ [row_error e]).
Proof. intros H. unfold loop_body, try_row. rewrite H. done. Qed.

Lemma extract_rows_app (a b : list Soup.PageElement)
    (st : list student * list pystr) :
  extract_rows (a ++ b) st = extract_rows b (extract_rows a st).
Proof. apply foldl_app. Qed.

Lemma extract_fields_cases (row : Soup.PageElement) :
  ((5 ≤ length (cells_of row))%nat ∧ ∃ s, extract_fields row = Ok s)
  ∨ ((length (cells_of row) < 5)%nat
     ∧ extract_fields row = Raise (IndexError (py "list index out of range"))).
Proof.
  destruct (decide (5 ≤ length (cells_of row))%nat) as [H|H].
  - left. split; [done|].
    destruct (extract_fields_Ok row H) as (c1 & c2 & c3 & c4 & _ & _ & _ & _ & E).
    eauto.
  - right. split; [lia|]. apply extract_fields_Raise. lia.
Qed.

Lemma snoc_neq {A} (l : list A) (x : A) : l ++ [x] ≠ l.
Proof. intros H. apply (f_equal length) in H. rewrite length_app in H. simpl in H. lia. Qed.

Lemma qualifies_spec (row : Soup.PageElement) :
  qualifies row = true ↔ (5 ≤ length (cells_of row))%nat ∧ has_student_id row.
Proof.
  unfold qualifies, has_student_id.
  rewrite andb_true_iff, bool_decide_eq_true. split.
  - intros [H5 H]. split; [done|].
    destruct (cells_of row !! 1%nat) as [cell|]; [|done].
    exists cell. split; [done|].
    apply negb_true_iff, bool_decide_eq_false in H. done.
  - intros [H5 (cell & Hc & Hid)]. split; [done|]. rewrite Hc.
    by apply negb_true_iff, bool_decide_eq_false.
Qed.

Lemma loop_body_qualifies (st : list student * list pystr)
    (row : Soup.PageElement) :
  (loop_body st row).1
  = st.1 ++ (if qualifies row
             then match extract_fields row with Ok s => [s] | Raise _ => [] end
             else []).
Proof.
  destruct (extract_fields_cases row) as [[H5 [s Hs]]|[H5 He]].
  - rewrite (loop_body_Ok _ _ _ Hs), Hs. simpl.
    destruct (extract_fields_Ok row H5) as (c1 & c2 & c3 & c4 & H1 & _ & _ & _ & E).
    rewrite Hs in E. injection E as ->. simpl.
    unfold qualifies. rewrite H1, font_text_stripped.
    rewrite (bool_decide_eq_true_2 _ H5). simpl.
    destruct (bool_decide (font_text c1 = [])); simpl; [by rewrite app_nil_r|done].
  - rewrite (loop_body_Raise _ _ _ He). simpl.
    unfold qualifies. rewrite bool_decide_eq_false_2 by lia. simpl.
    by rewrite app_nil_r.
Qed.

Lemma extract_rows_students (rows : list Soup.PageElement)
    (st : list student * list pystr) :
  ∃ kept, (extract_rows rows st).1 = st.1 ++ kept
    ∧ Forall2 (fun row s => extract_fields row = Ok s)
        (List.filter qualifies rows) kept.
Proof.
  revert st. induction rows as [|row rows IH]; intros st.
  - exists []. simpl. rewrite app_nil_r. split; [done|constructor].
  - simpl. destruct (IH (loop_body st row)) as (kept & Hk & HF).
    unfold extract_rows in *. simpl. rewrite Hk, loop_body_qualifies.
    destruct (qualifies row) eqn:Hq.
    + apply qualifies_spec in Hq as [H5 _].
      destruct (extract_fields_cases row) as [[_ [s Hs]]|[H5' _]]; [|lia].
      rewrite Hs. exists (s :: kept). rewrite <- app_assoc. split; [done|].
      by constructor.
    + exists kept. rewrite app_nil_r. done.
Qed.

(** C1.  For a row of at least five cells the field extraction succeeds
    with a record [s], and the loop appends [s] to [students] if and only
    if its Student ID is non-empty after trimming; when the trimmed ID is
    empty (an empty or whitespace-only ID text) [students] is left as it
    was. *)
Theorem retained_iff_student_id (row : Soup.PageElement)
    (students : list student) (out : list pystr) :
  (5 ≤ length (cells_of row))%nat →
  ∃ s, extract_fields row = Ok s
    ∧ ((loop_body (students, out) row).1 = students ++ [s]
       ↔ PyStr.strip (student_id s) ≠ [])
    ∧ ((loop_body (students, out) row).1 = students
       ↔ PyStr.strip (student_id s) = []).
Proof.
  intros H5.
  destruct (extract_fields_Ok row H5) as (c1 & c2 & c3 & c4 & _ & _ & _ & _ & E).
  eexists. split; [exact E|].
  rewrite (loop_body_Ok _ _ _ E). simpl. rewrite font_text_stripped.
  destruct (bool_decide (font_text c1 = [])) eqn:Hb.
  - apply bool_decide_eq_true in Hb. split; split; try done.
    intros H. by apply symmetry, snoc_neq in H.
  - apply bool_decide_eq_false in Hb. split; split; try done.
    intros H. by apply snoc_neq in H.
Qed.

Lemma retained_iff_student_id_witness :
  ∃ s, extract_fields Sample.jane = Ok s
    ∧ ((loop_body ([], []) Sample.jane).1 = [] ++ [s]
       ↔ PyStr.strip (student_id s) ≠ [])
    ∧ ((loop_body ([], []) Sample.jane).1 = []
       ↔ PyStr.strip (student_id s) = []).
Proof. apply (retained_iff_student_id Sample.jane [] []). vm_compute. lia. Defined.

(** C2, amended.  The Output Table holds exactly one record for each row
    that has at least five cells and a non-empty trimmed Student ID, in
    the order of the rows: it is the list of the records extracted from
    the rows that [qualifies] keeps. *)
Theorem one_record_per_qualifying_row :
  (∀ row, qualifies row = true
          ↔ (5 ≤ length (cells_of row))%nat ∧ has_student_id row)
  ∧ ∀ rows out,
      Forall2 (fun row s => extract_fields row = Ok s)
        (List.filter qualifies rows) (extract_rows rows ([], out)).1.
Proof.
  split; [apply qualifies_spec|]. intros rows out.
  destruct (extract_rows_students rows ([], out)) as (kept & -> & HF). done.
Qed.

(** C2 as stated fails: the three-cell row of [Sample.page] is selected
    and its second cell holds the ID 67890, yet the Output Table has
    only the record of the first row. *)
Lemma short_row_with_id_has_no_record :
  Sample.short ∈ student_rows Sample.page
  ∧ has_student_id Sample.short
  ∧ (extract_rows (student_rows Sample.page) ([], [])).1
    = [Student (py "12345") (py "Jane Doe") (py "CS101") (py "2024")].
Proof.
  split; [|split].
  - vm_compute. apply list_elem_of_In. right; left. reflexivity.
  - eexists. split; [reflexivity|]. vm_compute. discriminate.
  - vm_compute. reflexivity.
Qed.


(** ** Reading and writing files *)

Lemma cp1252_decode_Raise (bs : list byte) (e : exception) :
  Codec.cp1252_decode bs = Raise e → ∃ enc b, e = UnicodeDecodeError enc b.
Proof.
  induction bs as [|b bs IH]; simpl; [done|].
  destruct (Codec.cp1252_decode_byte b); [|intros [= <-]; eauto].
  destruct (Codec.cp1252_decode bs); simpl; [done|].
  intros [= <-]. by apply IH.
Qed.

Lemma utf8_encode_Raise (s : pystr) (e : exception) :
  Codec.utf8_encode s = Raise e → ∃ enc c, e = UnicodeEncodeError enc c.
Proof.
  induction s as [|c s IH]; simpl; [done|].
  destruct (Codec.utf8_encode_char c); [|intros [= <-]; eauto].
  destruct (Codec.utf8_encode s); simpl; [done|].
  intros [= <-]. by apply IH.
Qed.

Lemma read_latin1 (fs : FS.filesystem) (path : string) (f : FS.file) :
  fs !! path = Some f → FS.readable f = true →
  FS.read fs path Codec.Latin1
  = Ok (Codec.translate_newlines (Codec.latin1_decode (FS.data f))).
Proof. intros Hf Hr. unfold FS.read. by rewrite Hf, Hr. Qed.

Lemma read_ext (fs fs' : FS.filesystem) (path : string) (enc : Codec.encoding) :
  fs !! path = fs' !! path → FS.read fs path enc = FS.read fs' path enc.
Proof. intros H. unfold FS.read. by rewrite H. Qed.

Lemma read_html_ext (fs fs' : FS.filesystem) (path : string) :
  fs !! path = fs' !! path → read_html fs path = read_html fs' path.
Proof.
  intros H. unfold read_html.
  by rewrite (read_ext fs fs' path Codec.Windows1252 H),
             (read_ext fs fs' path Codec.Latin1 H).
Qed.

Lemma read_Raise_decode (fs : FS.filesystem) (path : string) (enc0 : pystr) (b : N) :
  FS.read fs path Codec.Windows1252 = Raise (UnicodeDecodeError enc0 b) →
  ∃ f, fs !! path = Some f ∧ FS.readable f = true.
Proof.
  unfold FS.read. destruct (fs !! path) as [f|]; [|done].
  destruct (FS.readable f) eqn:Hr; [intros _; eauto|done].
Qed.

Lemma read_html_Raise (fs : FS.filesystem) (path : string) (e : exception) :
  (read_html fs path).2 = Raise e →
  e = FileNotFoundError path ∨ e = PermissionError path.
Proof.
  unfold read_html.
  destruct (FS.read fs path Codec.Windows1252) as [s|e1] eqn:H1; [done|].
  destruct e1 as [m|enc b|enc c|p|p]; simpl.
  2:{ destruct (read_Raise_decode _ _ _ _ H1) as (f & Hf & Hr).
      by rewrite (read_latin1 _ _ _ Hf Hr). }
  all: intros [= <-]; revert H1; unfold FS.read;
    destruct (fs !! path) as [f|]; [destruct (FS.readable f)|];
    simpl; try (intros [= <-]; auto; fail); try done.
  all: destruct (Codec.cp1252_decode (FS.data f)) eqn:Hd; simpl; try done;
    intros [= ->]; apply cp1252_decode_Raise in Hd as (? & ? & ?); done.
Qed.

Lemma open_w_Raise (fs : FS.filesystem) (path : string) (e : exception) :
  FS.open_w fs path = Raise e → e = PermissionError path.
Proof.
  unfold FS.open_w. destruct (fs !! path) as [f|]; [|done].
  destruct (FS.writable f); [done|]. by intros [= <-].
Qed.

Lemma write_lines_Raise (fs : FS.filesystem) (path : string)
    (lines : list pystr) (e : exception) :
  (write_lines fs path lines).2 = Some e → ∃ enc c, e = UnicodeEncodeError enc c.
Proof.
  revert fs. induction lines as [|l lines IH]; intros fs; simpl; [done|].
  destruct (Codec.utf8_encode l) eqn:Hl; [apply IH|].
  simpl. intros [= <-]. by apply utf8_encode_Raise in Hl.
Qed.

Lemma scrape_raises (parse : pystr → Soup.PageElement) (i o : string)
    (w : world) (e : exception) :
  (scrape_student_data parse i o w).2 = Some e → ¬ is_IndexError e.
Proof.
  unfold scrape_student_data.
  destruct (read_html (fs w) i).2 as [html|e1] eqn:Hr.
  - destruct (extract_rows _ _).1; [done|].
    destruct (FS.open_w (fs w) o) as [fs1|e1] eqn:Ho.
    + destruct (write_lines fs1 o _) as [fs2 [e2|]] eqn:Hw; simpl; [|done].
      intros [= <-].
      destruct (write_lines_Raise _ _ _ e2 (f_equal snd Hw)) as (? & ? & ->).
      by intros [].
    + simpl. intros [= <-]. apply open_w_Raise in Ho as ->. by intros [].
  - simpl. intros [= <-].
    apply read_html_Raise in Hr as [->| ->]; by intros [].
Qed.

(** C4.  A row of fewer than five cells raises IndexError inside the
    [try]; the loop adds no record for it, prints
    "Error processing row: list index out of range", and goes on with the
    rows after it.  No IndexError leaves [scrape_student_data]. *)
Theorem short_row_is_skipped (before after : list Soup.PageElement)
    (row : Soup.PageElement) (st : list student * list pystr) :
  (length (cells_of row) < 5)%nat →
  extract_fields row = Raise (IndexError (py "list index out of range"))
  ∧ extract_rows (before ++ row :: after) st
    = extract_rows after
        ((extract_rows before st).1,
         (extract_rows before st).2
           ++ [py "Error processing row: list index out of range"])
  ∧ ∀ parse i o w e,
      (scrape_student_data parse i o w).2 = Some e → ¬ is_IndexError e.
Proof.
  intros H. pose proof (extract_fields_Raise row H) as E.
  split; [done|]. split; [|apply scrape_raises].
  rewrite extract_rows_app. unfold extract_rows at 1. simpl.
  by rewrite (loop_body_Raise _ _ _ E).
Qed.

Lemma short_row_is_skipped_witness :
  extract_fields Sample.short = Raise (IndexError (py "list index out of range"))
  ∧ extract_rows ([Sample.jane] ++ Sample.short :: [Sample.blank]) ([], [])
    = extract_rows [Sample.blank]
        ((extract_rows [Sample.jane] ([], [])).1,
         (extract_rows [Sample.jane] ([], [])).2
           ++ [py "Error processing row: list index out of range"])
  ∧ ∀ parse i o w e,
      (scrape_student_data parse i o w).2 = Some e → ¬ is_IndexError e.
Proof.
  apply (short_row_is_skipped [Sample.jane] [Sample.blank] Sample.short ([], [])).
  vm_compute. lia.
Defined.

(** C5.  For a row of at least five cells, each of the fields taken from
    cells 1, 2, 3 and 4 is the trimmed text of the first font element
    nested in that cell, and the empty string when the cell has none. *)
Theorem fields_are_trimmed_font_text (row : Soup.PageElement) :
  (5 ≤ length (cells_of row))%nat →
  ∃ c1 c2 c3 c4 s,
    cells_of row !! 1%nat = Some c1 ∧ cells_of row !! 2%nat = Some c2
    ∧ cells_of row !! 3%nat = Some c3 ∧ cells_of row !! 4%nat = Some c4
    ∧ extract_fields row = Ok s
    ∧ field_value c1 (student_id s) ∧ field_value c2 (student_name s)
    ∧ field_value c3 (course s) ∧ field_value c4 (year s).
Proof.
  intros H5.
  destruct (extract_fields_Ok row H5) as (c1 & c2 & c3 & c4 & H1 & H2 & H3 & H4 & E).
  exists c1, c2, c3, c4. eexists. repeat (split; [eassumption|]).
  simpl. repeat split; apply font_text_field_value.
Qed.

Lemma fields_are_trimmed_font_text_witness :
  ∃ c1 c2 c3 c4 s,
    cells_of Sample.jane !! 1%nat = Some c1 ∧ cells_of Sample.jane !! 2%nat = Some c2
    ∧ cells_of Sample.jane !! 3%nat = Some c3 ∧ cells_of Sample.jane !! 4%nat = Some c4
    ∧ extract_fields Sample.jane = Ok s
    ∧ field_value c1 (student_id s) ∧ field_value c2 (student_name s)
    ∧ field_value c3 (course s) ∧ field_value c4 (year s).
Proof. apply (fields_are_trimmed_font_text Sample.jane). vm_compute. lia. Defined.

(** C10.  For a row of at least five cells the body of the [try] raises
    nothing: the extraction and the [try] return a value, the loop prints
    no "Error processing row" line for the row, and a cell without a font
    element yields the empty string. *)
Theorem full_row_raises_nothing (row : Soup.PageElement)
    (students : list student) (out : list pystr) :
  (5 ≤ length (cells_of row))%nat →
  (∃ s, extract_fields row = Ok s)
  ∧ (∃ students', try_row students row = Ok students')
  ∧ (loop_body (students, out) row).2 = out
  ∧ (∀ i cell, (1 ≤ i ≤ 4)%nat → cells_of row !! i = Some cell →
       Soup.find (py "font") cell = None → font_text cell = []).
Proof.
  intros H5.
  destruct (extract_fields_Ok row H5) as (c1 & c2 & c3 & c4 & _ & _ & _ & _ & E).
  split; [eauto|]. split; [unfold try_row; rewrite E; simpl; eauto|].
  split; [by rewrite (loop_body_Ok _ _ _ E)|].
  intros i cell _ _ Hf. unfold font_text. by rewrite Hf.
Qed.

Lemma full_row_raises_nothing_witness :
  (∃ s, extract_fields Sample.blank = Ok s)
  ∧ (∃ students', try_row [] Sample.blank = Ok students')
  ∧ (loop_body ([], []) Sample.blank).2 = []
  ∧ (∀ i cell, (1 ≤ i ≤ 4)%nat → cells_of Sample.blank !! i = Some cell →
       Soup.find (py "font") cell = None → font_text cell = []).
Proof. apply (full_row_raises_nothing Sample.blank [] []). vm_compute. lia. Defined.

(** ** The loop, continued *)

Lemma loop_body_decompose (st : list student * list pystr)
    (row : Soup.PageElement) :
  loop_body st row
  = (st.1 ++ (loop_body ([], []) row).1, st.2 ++ (loop_body ([], []) row).2).
Proof.
  unfold loop_body, try_row. destruct (extract_fields row) as [s|e]; simpl.
  - destruct (bool_decide (student_id s = [])); simpl; by rewrite !app_nil_r.
  - by rewrite app_nil_r.
Qed.

Lemma extract_rows_cons (row : Soup.PageElement) (rows : list Soup.PageElement)
    (st : list student * list pystr) :
  extract_rows (row :: rows) st = extract_rows rows (loop_body st row).
Proof. reflexivity. Qed.

Lemma extract_rows_decompose (rows : list Soup.PageElement)
    (st : list student * list pystr) :
  extract_rows rows st
  = (st.1 ++ (extract_rows rows ([], [])).1, st.2 ++ (extract_rows rows ([], [])).2).
Proof.
  revert st. induction rows as [|row rows IH]; intros st.
  - simpl. rewrite !app_nil_r. by destruct st.
  - rewrite !extract_rows_cons.
    rewrite (IH (loop_body st row)), (IH (loop_body ([], []) row)).
    rewrite (loop_body_decompose st row). simpl. by rewrite !app_assoc.
Qed.

Lemma extract_rows_errors (rows : list Soup.PageElement) :
  Forall (fun l => l = py "Error processing row: list index out of range")
    (extract_rows rows ([], [])).2.
Proof.
  induction rows as [|row rows IH]; [constructor|].
  rewrite extract_rows_cons, extract_rows_decompose. simpl.
  apply Forall_app. split; [|exact IH].
  destruct (extract_fields_cases row) as [[_ [s Hs]]|[_ He]].
  - rewrite (loop_body_Ok _ _ _ Hs). constructor.
  - rewrite (loop_body_Raise _ _ _ He). by repeat constructor.
Qed.

(** C6.  When the input was read and no record was retained, the function
    returns normally, leaves every file as it was (the output file is
    neither created nor overwritten) and prints the no-data message once,
    after the diagnostics of the rows it skipped; with no selected row at
    all it prints that message only. *)
Theorem empty_table_writes_no_file (parse : pystr → Soup.PageElement)
    (html_file_path output_csv_path : string) (w : world) (html : pystr) :
  (read_html (fs w) html_file_path).2 = Ok html →
  (extract_rows (student_rows (parse html)) ([], stdout w)).1 = [] →
  (∃ errors,
     scrape_student_data parse html_file_path output_csv_path w
     = (World (fs w) (stdout w ++ errors ++ [no_data]), None)
     ∧ Forall (fun l => l = py "Error processing row: list index out of range")
         errors)
  ∧ (student_rows (parse html) = [] →
     scrape_student_data parse html_file_path output_csv_path w
     = (World (fs w) (stdout w ++ [no_data]), None)).
Proof.
  intros Hr He. unfold scrape_student_data. rewrite Hr, He. split.
  - exists (extract_rows (student_rows (parse html)) ([], [])).2.
    split; [|apply extract_rows_errors].
    rewrite extract_rows_decompose. simpl. by rewrite app_assoc.
  - intros ->. done.
Qed.

Lemma empty_table_writes_no_file_witness :
  (∃ errors,
     scrape_student_data (fun _ => Sample.document [Sample.short])
       "in.html" "out.csv" (World Sample.files [])
     = (World Sample.files ([] ++ errors ++ [no_data]), None)
     ∧ Forall (fun l => l = py "Error processing row: list index out of range")
         errors)
  ∧ (student_rows (Sample.document [Sample.short]) = [] →
     scrape_student_data (fun _ => Sample.document [Sample.short])
       "in.html" "out.csv" (World Sample.files [])
     = (World Sample.files ([] ++ [no_data]), None)).
Proof.
  apply (empty_table_writes_no_file (fun _ => Sample.document [Sample.short])
           "in.html" "out.csv" (World Sample.files []) (py "<tr>")).
  - vm_compute. reflexivity.
  - vm_compute. reflexivity.
Defined.

(** ** The decoder *)

Lemma cp1252_decode_Raise_iff (bs : list byte) :
  (∃ e, Codec.cp1252_decode bs = Raise e)
  ↔ Exists (fun b => Codec.cp1252_decode_byte b = None) bs.
Proof.
  induction bs as [|b bs IH]; simpl.
  - split; [by intros [e ?]|by intros ?%Exists_nil].
  - rewrite Exists_cons, <- IH.
    destruct (Codec.cp1252_decode_byte b) as [c|].
    + destruct (Codec.cp1252_decode bs) as [s|e]; simpl.
      * split; [by intros [e ?]|]. intros [?|[e ?]]; done.
      * split; [eauto|eauto].
    + split; [auto|eauto].
Qed.

(** C7.  The input is first read as windows-1252.  The file is read again
    as latin-1 exactly when that first read raises UnicodeDecodeError,
    which is when the file is readable and holds a byte windows-1252 does
    not define; the latin-1 read then succeeds, as latin-1 decodes every
    byte sequence.  A missing or unreadable file raises at the first
    [open] and nothing is retried. *)
Theorem decoder_tries_cp1252_then_latin1 (fs : FS.filesystem) (path : string) :
  head (read_html fs path).1 = Some Codec.Windows1252
  ∧ ((∃ enc b, FS.read fs path Codec.Windows1252 = Raise (UnicodeDecodeError enc b))
     ↔ (read_html fs path).1 = [Codec.Windows1252; Codec.Latin1])
  ∧ ((∃ enc b, FS.read fs path Codec.Windows1252 = Raise (UnicodeDecodeError enc b))
     ↔ ∃ f, fs !! path = Some f ∧ FS.readable f = true
          ∧ Exists (fun b => Codec.cp1252_decode_byte b = None) (FS.data f))
  ∧ ((read_html fs path).1 = [Codec.Windows1252; Codec.Latin1] →
     ∃ f, fs !! path = Some f
       ∧ (read_html fs path).2
         = Ok (Codec.translate_newlines (Codec.latin1_decode (FS.data f))))
  ∧ ((read_html fs path).1 ≠ [Codec.Windows1252; Codec.Latin1] →
     read_html fs path = ([Codec.Windows1252], FS.read fs path Codec.Windows1252))
  ∧ (∀ bs, Codec.decode Codec.Latin1 bs = Ok (map Byte.to_N bs))
  ∧ (fs !! path = None →
     read_html fs path = ([Codec.Windows1252], Raise (FileNotFoundError path)))
  ∧ (∀ f, fs !! path = Some f → FS.readable f = false →
     read_html fs path = ([Codec.Windows1252], Raise (PermissionError path))).
Proof.
  assert (Hiff : (∃ enc b, FS.read fs path Codec.Windows1252
                           = Raise (UnicodeDecodeError enc b))
                 ↔ (read_html fs path).1 = [Codec.Windows1252; Codec.Latin1]).
  { unfold read_html.
    destruct (FS.read fs path Codec.Windows1252) as [s|[m|enc b|enc c|p|p]];
      simpl; split; try done; try (by intros (? & ? & ?)); eauto. }
  split; [|split; [exact Hiff|split; [|split; [|split; [|split; [|split]]]]]].
  - unfold read_html.
    by destruct (FS.read fs path Codec.Windows1252) as [s|[m|enc b|enc c|p|p]].
  - unfold FS.read. destruct (fs !! path) as [f|]; simpl.
    2:{ split; [by intros (? & ? & ?)|by intros (? & ? & _)]. }
    destruct (FS.readable f) eqn:Hrd; simpl.
    2:{ split; [by intros (? & ? & ?)|]. intros (? & [= <-] & ? & _). congruence. }
    split.
    + intros (enc & b & H). exists f. split; [done|]. split; [done|].
      apply cp1252_decode_Raise_iff.
      destruct (Codec.cp1252_decode (FS.data f)); [done|eauto].
    + intros (f' & [= <-] & _ & [e He]%cp1252_decode_Raise_iff).
      rewrite He. simpl.
      apply cp1252_decode_Raise in He as (enc & b & ->). eauto.
  - intros H. apply Hiff in H as (enc & b & H).
    destruct (read_Raise_decode _ _ _ _ H) as (f & Hf & Hr).
    exists f. split; [done|]. unfold read_html. rewrite H.
    by apply read_latin1.
  - intros H. unfold read_html in *.
    by destruct (FS.read fs path Codec.Windows1252) as [s|[m|enc b|enc c|p|p]].
  - done.
  - intros H. unfold read_html, FS.read. by rewrite H.
  - intros f Hf Hr. unfold read_html, FS.read. by rewrite Hf, Hr.
Qed.

Example fallback_on_undefined_byte :
  read_html {[ "a.html"%string := FS.File true true [x41; x81; x0d; x0a] ]} "a.html"
  = ([Codec.Windows1252; Codec.Latin1], Ok [0x41; 0x81; 0x0A]%N).
Proof. vm_compute. reflexivity. Qed.

(** ** Writing the output file *)

Lemma file_eta (f : FS.file) :
  FS.File (FS.readable f) (FS.writable f) (FS.data f) = f.
Proof. by destruct f. Qed.

Lemma write_lines_encoded (lines : list pystr) (fs : FS.filesystem)
    (path : string) (f : FS.file) :
  fs !! path = Some f →
  write_lines fs path lines
  = (<[path := FS.File (FS.readable f) (FS.writable f)
                 (FS.data f ++ (encoded lines).1)]> fs,
     (encoded lines).2).
Proof.
  revert fs f. induction lines as [|l lines IH]; intros fs f Hf; simpl.
  - by rewrite app_nil_r, file_eta, insert_id.
  - destruct (Codec.utf8_encode l) as [bs|e]; simpl.
    + unfold FS.append. rewrite Hf.
      rewrite (IH _ (FS.File (FS.readable f) (FS.writable f) (FS.data f ++ bs)))
        by apply lookup_insert_eq.
      simpl. by rewrite insert_insert_eq, app_assoc.
    + by rewrite app_nil_r, file_eta, insert_id.
Qed.

Lemma open_w_cases (fs : FS.filesystem) (path : string) :
  FS.open_w fs path = Raise (PermissionError path)
  ∨ FS.open_w fs path
    = Ok (<[path := FS.File (from_option FS.readable true (fs !! path)) true []]> fs).
Proof.
  unfold FS.open_w. destruct (fs !! path) as [f|]; simpl; [|auto].
  destruct (FS.writable f); auto.
Qed.

Lemma open_w_ext (fs fs' : FS.filesystem) (path : string) :
  fs !! path = fs' !! path →
  match FS.open_w fs path, FS.open_w fs' path with
  | Ok fs1, Ok fs1' => fs1 !! path = fs1' !! path
  | Raise e, Raise e' => e = e'
  | _, _ => False
  end.
Proof.
  intros H. unfold FS.open_w. rewrite <- H.
  destruct (fs !! path) as [f|]; [destruct (FS.writable f)|];
    by rewrite ?lookup_insert_eq.
Qed.

Lemma students_ignore_stdout (rows : list Soup.PageElement) (out out' : list pystr) :
  (extract_rows rows ([], out)).1 = (extract_rows rows ([], out')).1.
Proof.
  by rewrite (extract_rows_decompose rows ([], out)),
             (extract_rows_decompose rows ([], out')).
Qed.

(** The output file and the exception of a run depend on the world only
    through the input file and the output file. *)
Lemma scrape_deterministic (parse : pystr → Soup.PageElement)
    (i o : string) (w w' : world) :
  fs w' !! i = fs w !! i → fs w' !! o = fs w !! o →
  fs (scrape_student_data parse i o w').1 !! o
  = fs (scrape_student_data parse i o w).1 !! o
  ∧ (scrape_student_data parse i o w').2 = (scrape_student_data parse i o w).2.
Proof.
  intros Hi Ho. unfold scrape_student_data.
  rewrite (read_html_ext _ _ _ Hi).
  destruct (read_html (fs w) i).2 as [html|e]; [|done].
  rewrite (students_ignore_stdout _ (stdout w') (stdout w)).
  destruct (extract_rows _ ([], stdout w)).1 as [|s l]; [done|].
  pose proof (open_w_ext _ _ o Ho) as Hw.
  destruct (open_w_cases (fs w) o) as [E|E], (open_w_cases (fs w') o) as [E'|E'];
    rewrite E, E' in *; try done.
  erewrite !write_lines_encoded by apply lookup_insert_eq.
  rewrite Ho. destruct (encoded _).2; simpl; by rewrite !lookup_insert_eq.
Qed.

Lemma scrape_cases (parse : pystr → Soup.PageElement) (i o : string) (w : world) :
  fs (scrape_student_data parse i o w).1 = fs w
  ∨ ∃ html s l,
      (read_html (fs w) i).2 = Ok html
      ∧ (extract_rows (student_rows (parse html)) ([], [])).1 = s :: l
      ∧ fs (scrape_student_data parse i o w).1 !! o
        = Some (FS.File (from_option FS.readable true (fs w !! o)) true
                  (encoded (csv_lines (s :: l))).1)
      ∧ (scrape_student_data parse i o w).2 = (encoded (csv_lines (s :: l))).2.
Proof.
  unfold scrape_student_data.
  destruct (read_html (fs w) i).2 as [html|e] eqn:Hr; [|by left].
  rewrite (students_ignore_stdout _ (stdout w) []).
  destruct (extract_rows _ ([], [])).1 as [|s l] eqn:Hs; [by left|].
  destruct (open_w_cases (fs w) o) as [E|E]; rewrite E; [by left|].
  right. exists html, s, l. split; [done|]. split; [done|].
  erewrite write_lines_encoded by apply lookup_insert_eq.
  destruct (encoded (csv_lines (s :: l))) as [bytes [e|]]; simpl;
    by rewrite lookup_insert_eq.
Qed.

Lemma scrape_rewrites (parse : pystr → Soup.PageElement) (i o : string)
    (w : world) (html : pystr) (s : student) (l : list student)
    (rd : bool) (bytes : list byte) :
  (read_html (fs w) i).2 = Ok html →
  (extract_rows (student_rows (parse html)) ([], [])).1 = s :: l →
  fs w !! o = Some (FS.File rd true bytes) →
  fs (scrape_student_data parse i o w).1 !! o
  = Some (FS.File rd true (encoded (csv_lines (s :: l))).1)
  ∧ (scrape_student_data parse i o w).2 = (encoded (csv_lines (s :: l))).2.
Proof.
  intros Hr Hs Ho. unfold scrape_student_data. rewrite Hr.
  rewrite (students_ignore_stdout _ (stdout w) []), Hs.
  unfold FS.open_w. rewrite Ho. cbn [FS.writable FS.readable].
  erewrite write_lines_encoded by apply lookup_insert_eq.
  destruct (encoded (csv_lines (s :: l))) as [bytes' [e|]]; simpl;
    by rewrite lookup_insert_eq.
Qed.

(** C9.  If the first run left the input file as it was, a second run
    with the same paths leaves the same output file and ends the same
    way.  More generally the output file and the outcome of a run are
    determined by the input file and the output file it starts from. *)
Theorem second_run_same_output (parse : pystr → Soup.PageElement)
    (html_file_path output_csv_path : string) (w : world) :
  fs (scrape_student_data parse html_file_path output_csv_path w).1
    !! html_file_path
  = fs w !! html_file_path →
  (fs (scrape_student_data parse html_file_path output_csv_path
         (scrape_student_data parse html_file_path output_csv_path w).1).1
     !! output_csv_path
   = fs (scrape_student_data parse html_file_path output_csv_path w).1
       !! output_csv_path
   ∧ (scrape_student_data parse html_file_path output_csv_path
        (scrape_student_data parse html_file_path output_csv_path w).1).2
     = (scrape_student_data parse html_file_path output_csv_path w).2)
  ∧ ∀ w', fs w' !! html_file_path = fs w !! html_file_path →
          fs w' !! output_csv_path = fs w !! output_csv_path →
          fs (scrape_student_data parse html_file_path output_csv_path w').1
            !! output_csv_path
          = fs (scrape_student_data parse html_file_path output_csv_path w).1
              !! output_csv_path
          ∧ (scrape_student_data parse html_file_path output_csv_path w').2
            = (scrape_student_data parse html_file_path output_csv_path w).2.
Proof.
  intros Hin. split; [|intros w'; apply scrape_deterministic].
  destruct (scrape_cases parse html_file_path output_csv_path w)
    as [Hfs|(html & s & l & Hr & Hs & Ho & He)].
  - apply scrape_deterministic; [done|by rewrite Hfs].
  - rewrite Ho, He. eapply scrape_rewrites; [|done|done].
    by rewrite (read_html_ext _ _ _ Hin).
Qed.

Lemma second_run_same_output_witness :
  (fs (scrape_student_data (fun _ => Sample.page) "in.html" "out.csv"
         (scrape_student_data (fun _ => Sample.page) "in.html" "out.csv"
            (World Sample.files [])).1).1 !! "out.csv"
   = fs (scrape_student_data (fun _ => Sample.page) "in.html" "out.csv"
           (World Sample.files [])).1 !! "out.csv"
   ∧ (scrape_student_data (fun _ => Sample.page) "in.html" "out.csv"
        (scrape_student_data (fun _ => Sample.page) "in.html" "out.csv"
           (World Sample.files [])).1).2
     = (scrape_student_data (fun _ => Sample.page) "in.html" "out.csv"
          (World Sample.files [])).2)
  ∧ ∀ w', fs w' !! "in.html" = fs (World Sample.files []) !! "in.html" →
          fs w' !! "out.csv" = fs (World Sample.files []) !! "out.csv" →
          fs (scrape_student_data (fun _ => Sample.page) "in.html" "out.csv" w').1
            !! "out.csv"
          = fs (scrape_student_data (fun _ => Sample.page) "in.html" "out.csv"
                  (World Sample.files [])).1 !! "out.csv"
          ∧ (scrape_student_data (fun _ => Sample.page) "in.html" "out.csv" w').2
            = (scrape_student_data (fun _ => Sample.page) "in.html" "out.csv"
                 (World Sample.files [])).2.
Proof.
  apply (second_run_same_output (fun _ => Sample.page) "in.html" "out.csv"
           (World Sample.files [])).
  vm_compute. reflexivity.
Defined.

(** ** The pattern *)

Lemma at_end_spec (s : pystr) : Re.at_end s = true ↔ s = [] ∨ s = [10%N].
Proof.
  destruct s as [|c [|d s]]; simpl.
  - split; auto.
  - rewrite N.eqb_eq. split; [intros ->; auto|intros [?|[= ->]]; done].
  - split; [done|intros [?|?]; done].
Qed.

Lemma isdecimal_newline : PyStr.isdecimal 10 = false.
Proof. vm_compute. reflexivity. Qed.

Lemma isdecimal_space : PyStr.isdecimal 32 = false.
Proof. vm_compute. reflexivity. Qed.

Lemma match_repeat_digits (s : pystr) :
  Re.match_repeat Re.CategoryDigit (Re.match_here [Re.AtEnd] false) s = true
  ↔ digits_then_end s.
Proof.
  split.
  - induction s as [|c s IH]; simpl; [done|].
    rewrite andb_true_iff, orb_true_iff, andb_true_r. intros [Hc [H|H]].
    + destruct (IH H) as (ds & tl & _ & Hds & -> & Htl).
      exists (c :: ds), tl. simpl. rewrite Hc, Hds. done.
    + apply at_end_spec in H. exists [c], s. simpl. rewrite Hc. done.
  - intros (ds & tl & Hne & Hds & -> & Htl).
    induction ds as [|c ds IH]; [done|]. simpl in *.
    apply andb_true_iff in Hds as [Hc Hds]. rewrite Hc. simpl.
    destruct ds as [|d ds].
    + apply orb_true_iff. right. rewrite andb_true_r. by apply at_end_spec.
    + apply orb_true_iff. left. by apply IH.
Qed.

Lemma search_from_anchored (s : pystr) :
  Re.search_from Re.msg_digits false s = false.
Proof. induction s as [|c s IH]; simpl; [done|]. exact IH. Qed.

Lemma search_msg_digits (s : pystr) :
  Re.search Re.msg_digits s = true ↔ msg_number_nl s.
Proof.
  unfold Re.search. split.
  - intros H. assert (Hm : Re.match_here Re.msg_digits true s = true).
    { destruct s as [|c s]; [done|]. cbn [Re.search_from] in H.
      rewrite search_from_anchored, orb_false_r in H. exact H. }
    clear H. destruct s as [|c1 [|c2 [|c3 s]]]; simpl in Hm; try done.
    + by rewrite andb_false_r in Hm.
    + by rewrite !andb_false_r in Hm.
    + apply andb_true_iff in Hm as [H1 Hm]. apply andb_true_iff in Hm as [H2 Hm].
      apply andb_true_iff in Hm as [H3 Hm].
      apply N.eqb_eq in H1 as ->, H2 as ->, H3 as ->.
      apply match_repeat_digits in Hm as (ds & tl & Hne & Hds & -> & [->| ->]).
      * left. exists ds. rewrite app_nil_r. done.
      * right. exists (py "msg" ++ ds). split; [by exists ds|].
        by rewrite <- app_assoc.
  - intros H.
    assert (Hd : ∃ rest, s = py "msg" ++ rest ∧ digits_then_end rest).
    { destruct H as [(ds & Hne & Hds & ->)|(s' & (ds & Hne & Hds & ->) & ->)].
      - exists ds. split; [done|]. exists ds, []. by rewrite app_nil_r; auto.
      - exists (ds ++ [10%N]). rewrite <- app_assoc. split; [done|].
        exists ds, [10%N]. auto. }
    destruct Hd as (rest & -> & Hd). apply match_repeat_digits in Hd.
    change (py "msg" ++ rest) with (109 :: 115 :: 103 :: rest)%N.
    cbn [Re.search_from]. apply orb_true_iff. left.
    cbn -[Re.match_repeat]. exact Hd.
Qed.

(** ** Attribute criteria *)

Lemma join_space_single (P : pystr → Prop) (tokens : list pystr) :
  (∀ s, P s → s ≠ [] ∧ 32%N ∉ s) →
  P (PyStr.join (py " ") tokens) → Exists P tokens.
Proof.
  intros HP H. destruct tokens as [|x [|y l]].
  - destruct (HP _ H) as [Hne _]. done.
  - by constructor.
  - destruct (HP _ H) as [_ Hsp]. exfalso. apply Hsp.
    cbn [PyStr.join]. rewrite elem_of_app. right.
    change (py " ") with [32%N]. simpl. left.
Qed.

Lemma existsb_Exists_iff {A} (f : A → bool) (P : A → Prop) (l : list A) :
  (∀ x, f x = true ↔ P x) → existsb f l = true ↔ Exists P l.
Proof.
  intros Hf. induction l as [|x l IH]; simpl.
  - split; [done|]. by intros H%Exists_nil.
  - rewrite orb_true_iff, Exists_cons, IH, Hf. done.
Qed.

Lemma strainer_matches_spec (v : option Soup.attr_value) (c : Soup.criterion)
    (P : pystr → Prop) :
  (∀ s, Soup.matches_string s c = true ↔ P s) →
  (∀ s, P s → s ≠ [] ∧ 32%N ∉ s) →
  Soup.strainer_matches v c = true ↔ attr_has v P.
Proof.
  intros Hc HP. destruct v as [[s|tokens]|]; simpl; [apply Hc| |done].
  rewrite orb_true_iff, (existsb_Exists_iff _ P) by done.
  split; [|auto]. intros [H|H]; [done|].
  apply Hc in H. by apply join_space_single.
Qed.

Lemma msg_number_no_space (s : pystr) : msg_number s → s ≠ [] ∧ 32%N ∉ s.
Proof.
  intros (ds & Hne & Hds & ->). split; [done|].
  change (py "msg") with [109; 115; 103]%N.
  rewrite elem_of_app. intros [H|H].
  - apply list_elem_of_In in H. simpl in H. intuition discriminate.
  - rewrite forallb_forall in Hds. apply list_elem_of_In in H.
    apply Hds in H. by rewrite isdecimal_space in H.
Qed.

Lemma msg_number_nl_no_space (s : pystr) : msg_number_nl s → s ≠ [] ∧ 32%N ∉ s.
Proof.
  intros [H|(s' & H & ->)]; [by apply msg_number_no_space|].
  apply msg_number_no_space in H as [Hne Hsp]. split.
  - by destruct s'.
  - rewrite elem_of_app. intros [?|H]; [done|].
    apply list_elem_of_In in H. simpl in H. intuition discriminate.
Qed.

Lemma row_signature (e : Soup.PageElement) :
  Soup.search_tag (py "tr") row_attrs e = true ↔ selected e.
Proof.
  unfold selected, is_tag. destruct e as [ty s|n a cs]; simpl.
  { split; [done|]. by intros [? _]. }
  rewrite andb_true_r, !andb_true_iff, bool_decide_eq_true.
  rewrite (strainer_matches_spec _ _ (fun s => s = py "nav")).
  - rewrite (strainer_matches_spec _ _ msg_number_nl).
    + split; [by intros (-> & ? & ?)|]. by intros ([= ->] & ? & ?).
    + intros s. apply search_msg_digits.
    + apply msg_number_nl_no_space.
  - intros s. simpl. by rewrite bool_decide_eq_true.
  - intros s ->. split; [done|]. intros H.
    apply list_elem_of_In in H. vm_compute in H. intuition discriminate.
Qed.

(** C3, amended.  The selected rows are, in document order, the elements
    below the root that are [tr] tags with [nav] among their classes and
    an id made of [msg], one or more decimal digits and possibly one
    final newline; an element without this signature is never selected,
    and when no element has it the result is the empty list. *)
Theorem row_selector_signature (soup : Soup.PageElement) :
  student_rows soup
  = List.filter (Soup.search_tag (py "tr") row_attrs) (Soup.descendants soup)
  ∧ (∀ e, Soup.search_tag (py "tr") row_attrs e = true ↔ selected e)
  ∧ (∀ e, e ∈ student_rows soup ↔ e ∈ Soup.descendants soup ∧ selected e)
  ∧ (Forall (fun e => ¬ selected e) (Soup.descendants soup) →
     student_rows soup = []).
Proof.
  split; [done|]. split; [apply row_signature|]. split.
  - intros e. unfold student_rows, Soup.find_all.
    rewrite list_elem_of_In, filter_In, <- list_elem_of_In, row_signature. done.
  - unfold student_rows, Soup.find_all.
    induction (Soup.descendants soup) as [|e l IH]; [done|].
    intros [He Hl]%Forall_cons. simpl.
    destruct (Soup.search_tag _ _ e) eqn:Hs; [|auto].
    by apply row_signature in Hs.
Qed.

(** C3 as stated fails: a row whose class attribute is "nav odd" is
    selected, and so is a row whose id is "msg5" followed by a newline. *)
Lemma selected_beyond_signature :
  (Sample.two_classes ∈ student_rows (Sample.document [Sample.two_classes; Sample.id_newline])
   ∧ ¬ attr_is (Soup.get Sample.two_classes (py "class")) (py "nav"))
  ∧ (Sample.id_newline ∈ student_rows (Sample.document [Sample.two_classes; Sample.id_newline])
     ∧ attr_has (Soup.get Sample.id_newline (py "id")) (fun s => ¬ msg_number s)).
Proof.
  split; split.
  - vm_compute. apply list_elem_of_In. left. reflexivity.
  - vm_compute. intros [H|H]; discriminate H.
  - vm_compute. apply list_elem_of_In. right; left. reflexivity.
  - change (¬ msg_number (py "msg" ++ [53; 10]%N)).
    intros (ds & _ & Hds & H). apply app_inv_head in H. subst ds.
    vm_compute in Hds. discriminate.
Qed.

Ltac Zify.zify_post_hook ::= Z.to_euclidean_division_equations.

Lemma to_N_byte_of_N (n : N) :
  (n < 256)%N → Byte.to_N (Codec.byte_of_N n) = n.
Proof.
  intros H. unfold Codec.byte_of_N.
  destruct (Byte.of_N n) as [b|] eqn:E; simpl.
  - by apply Byte.to_of_N.
  - apply Byte.of_N_None_iff in E. lia.
Qed.

(** Replace the bytes built by [byte_of_N] by variables that carry only
    their numeric value. *)
Ltac name_bytes :=
  repeat match goal with
  | |- context [Codec.byte_of_N ?n] =>
      let b := fresh "b" in let Hb := fresh "Hb" in
      assert (Hb : Byte.to_N (Codec.byte_of_N n) = n)
        by (apply to_N_byte_of_N; lia);
      set (b := Codec.byte_of_N n) in *; clearbody b
  end.

Ltac decide_tests :=
  repeat match goal with
  | |- context [(?a <? ?b)%N] =>
      destruct (N.ltb_spec a b); try lia
  | |- context [(?a <=? ?b)%N] =>
      destruct (N.leb_spec a b); try lia
  end.

Lemma utf8_decode_char (c : N) (bs rest : list byte) :
  Codec.utf8_encode_char c = Some bs →
  Reread.utf8_decode (bs ++ rest) = cons c <$> Reread.utf8_decode rest.
Proof.
  unfold Codec.utf8_encode_char, Codec.is_surrogate.
  destruct (N.ltb_spec c 0x80).
  { intros [= <-]. name_bytes. cbn [app Reread.utf8_decode]. rewrite Hb.
    decide_tests. done. }
  destruct (N.ltb_spec c 0x800).
  { intros [= <-]. name_bytes. cbn [app Reread.utf8_decode].
    unfold Reread.continuation, Reread.low6. rewrite Hb, Hb0.
    decide_tests. simpl. do 2 f_equal. lia. }
  destruct (N.ltb_spec c 0x10000).
  { destruct (N.leb_spec 0xD800 c), (N.leb_spec c 0xDFFF); simpl; try done.
    all: intros [= <-]; name_bytes; cbn [app Reread.utf8_decode];
      unfold Reread.continuation, Reread.low6, Codec.is_surrogate;
      rewrite Hb, Hb0, Hb1; decide_tests; simpl; do 2 f_equal; lia. }
  destruct (N.ltb_spec c 0x110000); [|done].
  intros [= <-]. name_bytes. cbn [app Reread.utf8_decode].
  unfold Reread.continuation, Reread.low6. rewrite Hb, Hb0, Hb1, Hb2.
  decide_tests. simpl. do 2 f_equal. lia.
Qed.

Lemma utf8_decode_encode (s : pystr) (bs rest : list byte) :
  Codec.utf8_encode s = Ok bs →
  Reread.utf8_decode (bs ++ rest) = app s <$> Reread.utf8_decode rest.
Proof.
  revert bs. induction s as [|c s IH]; intros bs; simpl.
  - intros [= <-]. simpl. by destruct (Reread.utf8_decode rest).
  - destruct (Codec.utf8_encode_char c) as [b1|] eqn:Hc; [|done].
    destruct (Codec.utf8_encode s) as [r|] eqn:Hs; simpl; [|done].
    intros [= <-]. rewrite <- app_assoc, (utf8_decode_char _ _ _ Hc), (IH r) by done.
    by destruct (Reread.utf8_decode rest).
Qed.

Lemma utf8_encode_char_Some (c : N) :
  (c < 0x110000)%N → Codec.is_surrogate c = false →
  ∃ bs, Codec.utf8_encode_char c = Some bs.
Proof.
  intros Hc Hs. unfold Codec.utf8_encode_char. rewrite Hs.
  destruct (c <? 0x80)%N; [eauto|]. destruct (c <? 0x800)%N; [eauto|].
  destruct (c <? 0x10000)%N; [eauto|].
  destruct (N.ltb_spec c 0x110000); [eauto|lia].
Qed.

Lemma utf8_encode_Ok (s : pystr) :
  encodable s → ∃ bs, Codec.utf8_encode s = Ok bs.
Proof.
  induction 1 as [|c s [Hc Hs] _ [bs IH]]; simpl; [eauto|].
  destruct (utf8_encode_char_Some c Hc Hs) as [b1 ->]. rewrite IH. simpl. eauto.
Qed.

Lemma encoded_decodes (lines : list pystr) :
  Forall encodable lines →
  (encoded lines).2 = None
  ∧ Reread.utf8_decode (encoded lines).1 = Some (concat lines).
Proof.
  induction 1 as [|l lines Hl _ [IH1 IH2]]; simpl; [done|].
  destruct (utf8_encode_Ok l Hl) as [bs Hbs]. rewrite Hbs. simpl.
  split; [done|]. by rewrite (utf8_decode_encode _ _ _ Hbs), IH2.
Qed.

(** ** The delimited text read back *)

Lemma run_app (a b : pystr) (r : Reread.reader) :
  Reread.run (a ++ b) r = Reread.run b (Reread.run a r).
Proof. apply foldl_app. Qed.

Lemma run_cons (c : N) (s : pystr) (r : Reread.reader) :
  Reread.run (c :: s) r = Reread.run s (Reread.step r c).
Proof. reflexivity. Qed.

Lemma special_false (c : N) :
  Csv.special c = false → c ≠ 44%N ∧ c ≠ 34%N ∧ c ≠ 13%N ∧ c ≠ 10%N.
Proof.
  unfold Csv.special. rewrite !orb_false_iff, !N.eqb_neq. tauto.
Qed.

Lemma step_plain (c : N) (st : Reread.mode) (acc : pystr) (fs : list pystr)
    (rs : list (list pystr)) :
  Csv.special c = false → st = Reread.StartField ∨ st = Reread.InField →
  Reread.step (Reread.Reader st acc fs rs) c
  = Reread.Reader Reread.InField (acc ++ [c]) fs rs.
Proof.
  intros (H1 & H2 & H3 & H4)%special_false Hst.
  unfold Reread.step, Reread.start_field, Reread.is_eol. simpl.
  apply N.eqb_neq in H1, H2, H3, H4.
  destruct Hst as [-> | ->]; by rewrite ?H1, ?H2, ?H3, ?H4.
Qed.

Lemma run_in_field (f acc : pystr) (fs : list pystr) (rs : list (list pystr)) :
  existsb Csv.special f = false →
  Reread.run f (Reread.Reader Reread.InField acc fs rs)
  = Reread.Reader Reread.InField (acc ++ f) fs rs.
Proof.
  revert acc. induction f as [|c f IH]; intros acc Hsp.
  - by rewrite app_nil_r.
  - cbn [existsb] in Hsp. apply orb_false_iff in Hsp as [Hc Hf].
    rewrite run_cons, step_plain by auto.
    rewrite IH by done. by rewrite <- app_assoc.
Qed.

Lemma run_in_quotes (f acc : pystr) (fs : list pystr) (rs : list (list pystr)) :
  Reread.run (flat_map Csv.escape f) (Reread.Reader Reread.InQuotedField acc fs rs)
  = Reread.Reader Reread.InQuotedField (acc ++ f) fs rs.
Proof.
  revert acc. induction f as [|c f IH]; intros acc.
  - by rewrite app_nil_r.
  - cbn [flat_map]. rewrite run_app.
    assert (Hs : Reread.run (Csv.escape c)
                   (Reread.Reader Reread.InQuotedField acc fs rs)
                 = Reread.Reader Reread.InQuotedField (acc ++ [c]) fs rs).
    { unfold Csv.escape. destruct (N.eqb_spec c 34) as [->|Hc]; [reflexivity|].
      rewrite run_cons. unfold Reread.step. simpl.
      apply N.eqb_neq in Hc. by rewrite Hc. }
    rewrite Hs, IH. by rewrite <- app_assoc.
Qed.

(** A written field, whatever follows it, leaves the reader holding the
    field's value in a state where a comma or a line end saves it. *)
Lemma run_quote_field (f : pystr) (fs : list pystr) (rs : list (list pystr)) :
  ∃ st, Reread.run (Csv.quote_field f) (Reread.Reader Reread.StartField [] fs rs)
        = Reread.Reader st f fs rs
    ∧ (st = Reread.StartField ∧ f = [] ∨ st = Reread.InField
       ∨ st = Reread.QuoteInQuotedField).
Proof.
  unfold Csv.quote_field. destruct (existsb Csv.special f) eqn:Hsp.
  - exists Reread.QuoteInQuotedField. split; [|auto].
    change ([34%N] ++ flat_map Csv.escape f ++ [34%N])
      with (34%N :: (flat_map Csv.escape f ++ [34%N])).
    rewrite run_cons, run_app.
    change (Reread.step (Reread.Reader Reread.StartField [] fs rs) 34)
      with (Reread.Reader Reread.InQuotedField [] fs rs).
    rewrite run_in_quotes. reflexivity.
  - destruct f as [|c f].
    + exists Reread.StartField. auto.
    + exists Reread.InField. split; [|auto].
      simpl in Hsp. apply orb_false_iff in Hsp as [Hc Hf].
      rewrite run_cons, step_plain by auto. by rewrite run_in_field.
Qed.

Lemma run_field_comma (f rest : pystr) (fs : list pystr) (rs : list (list pystr)) :
  Reread.run (Csv.quote_field f ++ 44%N :: rest)
    (Reread.Reader Reread.StartField [] fs rs)
  = Reread.run rest (Reread.Reader Reread.StartField [] (fs ++ [f]) rs).
Proof.
  rewrite run_app, run_cons.
  destruct (run_quote_field f fs rs) as (st & -> & [[-> ->]|[->| ->]]); reflexivity.
Qed.

Lemma run_field_crlf (f rest : pystr) (fs : list pystr) (rs : list (list pystr)) :
  Reread.run (Csv.quote_field f ++ 13%N :: 10%N :: rest)
    (Reread.Reader Reread.StartField [] fs rs)
  = Reread.run rest (Reread.Reader Reread.StartRecord [] [] (rs ++ [fs ++ [f]])).
Proof.
  rewrite run_app, !run_cons.
  destruct (run_quote_field f fs rs) as (st & -> & [[-> ->]|[->| ->]]); reflexivity.
Qed.

Lemma run_fields (fields : list pystr) (rest : pystr) (fs : list pystr)
    (rs : list (list pystr)) :
  fields ≠ [] →
  Reread.run (PyStr.join [44%N] (map Csv.quote_field fields) ++ 13%N :: 10%N :: rest)
    (Reread.Reader Reread.StartField [] fs rs)
  = Reread.run rest (Reread.Reader Reread.StartRecord [] [] (rs ++ [fs ++ fields])).
Proof.
  revert fs. induction fields as [|f [|g l] IH]; intros fs Hne; [done| |].
  - simpl. apply run_field_crlf.
  - change (PyStr.join [44%N] (map Csv.quote_field (f :: g :: l)))
      with (Csv.quote_field f ++ [44%N]
            ++ PyStr.join [44%N] (map Csv.quote_field (g :: l))).
    rewrite <- !app_assoc. change ([44%N] ++ ?x) with (44%N :: x).
    rewrite run_field_comma, IH by done.
    by rewrite <- app_assoc.
Qed.

Lemma format_row_fields (f g : pystr) (l : list pystr) :
  Csv.format_row (f :: g :: l)
  = PyStr.join [44%N] (map Csv.quote_field (f :: g :: l)) ++ [13; 10]%N.
Proof. by destruct f. Qed.

(** A record of two fields or more does not start with a line end, so
    the reader takes its first character as the start of a field. *)
Lemma run_start_record (f g : pystr) (l : list pystr) (rest : pystr)
    (rs : list (list pystr)) :
  Reread.run (Csv.format_row (f :: g :: l) ++ rest)
    (Reread.Reader Reread.StartRecord [] [] rs)
  = Reread.run (Csv.format_row (f :: g :: l) ++ rest)
      (Reread.Reader Reread.StartField [] [] rs).
Proof.
  rewrite format_row_fields.
  change (PyStr.join [44%N] (map Csv.quote_field (f :: g :: l)))
    with (Csv.quote_field f ++ [44%N]
          ++ PyStr.join [44%N] (map Csv.quote_field (g :: l))).
  unfold Csv.quote_field at 1 3.
  destruct (existsb Csv.special f) eqn:Hsp; [reflexivity|].
  destruct f as [|c f]; [reflexivity|].
  simpl in Hsp. apply orb_false_iff in Hsp as [Hc _].
  apply special_false in Hc as (_ & _ & H13 & H10).
  rewrite <- !app_comm_cons, !run_cons. f_equal.
  unfold Reread.step, Reread.start_field, Reread.is_eol. simpl.
  apply N.eqb_neq in H13, H10. by rewrite H13, H10.
Qed.

Lemma run_format_row (f g : pystr) (l : list pystr) (rest : pystr)
    (rs : list (list pystr)) :
  Reread.run (Csv.format_row (f :: g :: l) ++ rest)
    (Reread.Reader Reread.StartRecord [] [] rs)
  = Reread.run rest (Reread.Reader Reread.StartRecord [] [] (rs ++ [f :: g :: l])).
Proof.
  rewrite run_start_record, format_row_fields, <- app_assoc.
  change ([13; 10]%N ++ rest) with (13 :: 10 :: rest)%N.
  by rewrite run_fields.
Qed.

Lemma run_rows (students : list student) (rs : list (list pystr)) :
  Reread.run (concat (map (fun s => Csv.format_row (row_values s)) students))
    (Reread.Reader Reread.StartRecord [] [] rs)
  = Reread.Reader Reread.StartRecord [] [] (rs ++ map row_values students).
Proof.
  revert rs. induction students as [|s students IH]; intros rs.
  - by rewrite app_nil_r.
  - cbn [map concat]. unfold row_values at 1. rewrite run_format_row, IH.
    by rewrite <- app_assoc.
Qed.

Lemma csv_read_lines (students : list student) :
  Reread.csv_read (concat (csv_lines students))
  = fieldnames :: map row_values students.
Proof.
  unfold Reread.csv_read, csv_lines. cbn [concat].
  unfold fieldnames at 1. rewrite run_format_row, run_rows. reflexivity.
Qed.

(** ** The lines can be encoded *)

Lemma encodable_quote_field (f : pystr) :
  encodable f → encodable (Csv.quote_field f).
Proof.
  intros Hf. unfold Csv.quote_field. destruct (existsb Csv.special f); [|done].
  assert (Hq : (34 < 0x110000)%N ∧ Codec.is_surrogate 34 = false) by done.
  apply Forall_app. split; [by repeat constructor|].
  apply Forall_app. split; [|by repeat constructor].
  induction Hf as [|c f Hc _ IH]; [constructor|].
  cbn [flat_map]. apply Forall_app. split; [|done].
  unfold Csv.escape. destruct (c =? 34)%N; [by repeat constructor|].
  by constructor.
Qed.

Lemma encodable_join (l : list pystr) :
  Forall encodable l → encodable (PyStr.join [44%N] l).
Proof.
  induction 1 as [|x l Hx Hl IH]; [constructor|].
  destruct l as [|y l]; [done|].
  change (PyStr.join [44%N] (x :: y :: l))
    with (x ++ [44%N] ++ PyStr.join [44%N] (y :: l)).
  apply Forall_app. split; [done|].
  apply Forall_app. split; [by repeat constructor|done].
Qed.

Lemma encodable_format_row (fields : list pystr) :
  Forall encodable fields → encodable (Csv.format_row fields).
Proof.
  intros H.
  assert (Hj : encodable (PyStr.join [44%N] (map Csv.quote_field fields) ++ [13; 10]%N)).
  { apply Forall_app. split; [|by repeat constructor].
    apply encodable_join, Forall_map.
    eapply Forall_impl; [exact H|]. apply encodable_quote_field. }
  unfold Csv.format_row.
  destruct fields as [|[|c f] [|g l]]; try done. by repeat constructor.
Qed.

Lemma encodable_csv_lines (students : list student) :
  Forall (fun s => Forall encodable (row_values s)) students →
  Forall encodable (csv_lines students).
Proof.
  intros H. unfold csv_lines. constructor.
  - apply encodable_format_row. unfold fieldnames, encodable.
    repeat constructor.
  - apply Forall_map. eapply Forall_impl; [exact H|].
    intros s. apply encodable_format_row.
Qed.

(** C8, amended.  When no field holds a surrogate code point, writing the
    header and the records to the freshly opened output file succeeds,
    and decoding and reading the file back gives the header followed by
    one record per student with the four field values unchanged, commas,
    quotes and line breaks included. *)
Theorem csv_round_trip (students : list student) (fs fs1 : FS.filesystem)
    (output_csv_path : string) :
  Forall (fun s => Forall encodable (row_values s)) students →
  FS.open_w fs output_csv_path = Ok fs1 →
  ∃ fs2 f,
    write_lines fs1 output_csv_path (csv_lines students) = (fs2, None)
    ∧ fs2 !! output_csv_path = Some f
    ∧ Reread.read_file f = Some (fieldnames :: map row_values students).
Proof.
  intros Henc Hopen.
  destruct (encoded_decodes _ (encodable_csv_lines _ Henc)) as [Hnone Hdec].
  destruct (open_w_cases fs output_csv_path) as [E|E];
    rewrite E in Hopen; [done|]. injection Hopen as <-.
  erewrite write_lines_encoded by apply lookup_insert_eq.
  rewrite Hnone. eexists _, _. split; [reflexivity|].
  split; [apply lookup_insert_eq|].
  unfold Reread.read_file. cbn [FS.data app]. rewrite Hdec.
  cbn [fmap option_fmap option_map]. by rewrite csv_read_lines.
Qed.

Lemma csv_round_trip_witness :
  ∃ fs2 f,
    write_lines (<["out.csv"%string := FS.File true true []]> ∅) "out.csv"
      (csv_lines [Sample.with_comma]) = (fs2, None)
    ∧ fs2 !! "out.csv"%string = Some f
    ∧ Reread.read_file f = Some (fieldnames :: map row_values [Sample.with_comma]).
Proof.
  apply (csv_round_trip [Sample.with_comma] ∅
           (<["out.csv"%string := FS.File true true []]> ∅) "out.csv").
  - unfold encodable. compute_done.
  - reflexivity.
Defined.

(** C8 as stated fails: for a table of one record whose ID is a lone
    surrogate the write raises UnicodeEncodeError after the header, and
    the file read back holds the header and no data row. *)
Lemma surrogate_breaks_round_trip :
  ∃ fs1 fs2 f,
    FS.open_w ∅ "out.csv" = Ok fs1
    ∧ write_lines fs1 "out.csv" (csv_lines [Sample.surrogate_id])
      = (fs2, Some (UnicodeEncodeError (py "utf-8") 0xD800))
    ∧ fs2 !! "out.csv"%string = Some f
    ∧ Reread.read_file f = Some [fieldnames].
Proof.
  eexists _, _, _. split; [reflexivity|].
  split; [vm_compute; reflexivity|].
  split; [vm_compute; reflexivity|]. vm_compute. reflexivity.
Qed.

(** The scenario of section 8: one selected row holding 12345, Jane Doe,
    CS101 and 2024 gives a file of the header and that one record, and
    the report starts with the count. *)
Example scenario_one_row :
  (scrape_student_data (fun _ => Sample.document [Sample.jane])
     "in.html" "out.csv" (World Sample.files [])).2 = None
  ∧ (f ← fs (scrape_student_data (fun _ => Sample.document [Sample.jane])
               "in.html" "out.csv" (World Sample.files [])).1 !! "out.csv";
     Reread.utf8_decode (FS.data f))
    = Some (py "Student ID,Student Name,Course,Year" ++ [13; 10]%N
            ++ py "12345,Jane Doe,CS101,2024" ++ [13; 10]%N)
  ∧ head (stdout (scrape_student_data (fun _ => Sample.document [Sample.jane])
                    "in.html" "out.csv" (World Sample.files [])).1)
    = Some (py "Successfully scraped 1 students").
Proof. vm_compute. done. Qed.

(* ------------------------------------------------------------------ *)
(** * Further properties of the scraper *)

(** ** The outcomes of a run *)


Lemma scrape_after_read (parse : pystr → Soup.PageElement) (i o : string)
    (w : world) (html : pystr) :
  (read_html (fs w) i).2 = Ok html →
  scrape_student_data parse i o w = run_outcome parse html o w.
Proof.
  intros Hr. unfold scrape_student_data, run_outcome. rewrite Hr.
  rewrite (extract_rows_decompose _ ([], stdout w)). cbn [fst snd app].
  destruct (extract_rows _ ([], [])).1 as [|s l] eqn:Hs.
  { by rewrite app_assoc. }
  destruct (open_w_cases (fs w) o) as [E|E]; rewrite E; [done|].
  erewrite write_lines_encoded by apply lookup_insert_eq.
  rewrite insert_insert_eq. cbn [FS.readable FS.writable FS.data app].
  destruct (encoded (csv_lines (s :: l))) as [bytes [e|]]; cbn [fst snd].
  - by rewrite app_nil_r.
  - by rewrite app_assoc.
Qed.

Lemma scrape_read_fails (parse : pystr → Soup.PageElement) (i o : string)
    (w : world) (e : exception) :
  (read_html (fs w) i).2 = Raise e →
  scrape_student_data parse i o w = (w, Some e).
Proof. intros Hr. unfold scrape_student_data. by rewrite Hr. Qed.

(** X1.  A run changes no file other than the output file: every other
    path holds after the run what it held before. *)
Theorem other_files_untouched (parse : pystr → Soup.PageElement)
    (html_file_path output_csv_path path : string) (w : world) :
  path ≠ output_csv_path →
  fs (scrape_student_data parse html_file_path output_csv_path w).1 !! path
  = fs w !! path.
Proof.
  intros Hne.
  destruct (read_html (fs w) html_file_path).2 as [html|e] eqn:Hr.
  - rewrite (scrape_after_read _ _ _ _ _ Hr). unfold run_outcome.
    destruct (extract_rows _ _).1; [done|].
    destruct (FS.open_w (fs w) output_csv_path); [|done].
    cbn [fst fs]. by rewrite lookup_insert_ne.
  - by rewrite (scrape_read_fails _ _ _ _ _ Hr).
Qed.

Lemma other_files_untouched_witness :
  fs (scrape_student_data (fun _ => Sample.page) "in.html" "out.csv"
        (World Sample.files [])).1 !! "in.html"
  = fs (World Sample.files []) !! "in.html".
Proof.
  apply (other_files_untouched (fun _ => Sample.page) "in.html" "out.csv"
           "in.html" (World Sample.files [])).
  discriminate.
Defined.

(** ** The encoder *)

Lemma utf8_encode_char_None (c : N) :
  Codec.utf8_encode_char c = None
  ↔ (0x110000 ≤ c)%N ∨ Codec.is_surrogate c = true.
Proof.
  unfold Codec.utf8_encode_char, Codec.is_surrogate.
  rewrite andb_true_iff, !N.leb_le.
  destruct (N.ltb_spec c 0x80) as [L1|L1]; [split; [done|lia]|].
  destruct (N.ltb_spec c 0x800) as [L2|L2]; [split; [done|lia]|].
  destruct (N.ltb_spec c 0x10000) as [L3|L3].
  - destruct (N.leb_spec 0xD800 c) as [S1|S1], (N.leb_spec c 0xDFFF) as [S2|S2];
      simpl; split; try done; try lia; auto.
  - destruct (N.ltb_spec c 0x110000) as [L4|L4]; split; try done; try lia; auto.
Qed.

Lemma utf8_encode_app (a b : pystr) :
  Codec.utf8_encode (a ++ b)
  = (x ← Codec.utf8_encode a; y ← Codec.utf8_encode b; Ok (x ++ y)).
Proof.
  induction a as [|c a IH]; simpl.
  - by destruct (Codec.utf8_encode b).
  - destruct (Codec.utf8_encode_char c); [|done]. rewrite IH.
    destruct (Codec.utf8_encode a); simpl; [|done].
    destruct (Codec.utf8_encode b); simpl; [|done]. by rewrite app_assoc.
Qed.

Lemma utf8_encode_Raise_char (s : pystr) (e : exception) :
  Codec.utf8_encode s = Raise e →
  ∃ c, c ∈ s ∧ e = UnicodeEncodeError (py "utf-8") c
       ∧ ((0x110000 ≤ c)%N ∨ Codec.is_surrogate c = true).
Proof.
  induction s as [|c s IH]; simpl; [done|].
  destruct (Codec.utf8_encode_char c) eqn:Hc.
  - destruct (Codec.utf8_encode s); simpl; [done|].
    intros [= <-]. destruct (IH eq_refl) as (d & Hd & -> & H).
    exists d. split; [by right|done].
  - intros [= <-]. exists c. split; [by left|].
    split; [done|]. by apply utf8_encode_char_None.
Qed.



Lemma encoded_stops (good rest : list pystr) (bad : pystr) (e : exception) :
  Forall encodable good → Codec.utf8_encode bad = Raise e →
  ∃ bytes, Codec.utf8_encode (concat good) = Ok bytes
           ∧ encoded (good ++ bad :: rest) = (bytes, Some e).
Proof.
  intros Hg Hb. induction Hg as [|l good Hl _ (bytes & Hbs & He)]; simpl.
  - exists []. by rewrite Hb.
  - destruct (utf8_encode_Ok l Hl) as [bs Hl'].
    exists (bs ++ bytes). rewrite utf8_encode_app, Hl', Hbs, He. done.
Qed.



(** X3.  When the input file is missing or unreadable the run raises
    before anything else happens: no file changes and nothing is
    printed; the exception is FileNotFoundError for a missing file and
    PermissionError for an unreadable one. *)
Theorem unreadable_input_changes_nothing (parse : pystr → Soup.PageElement)
    (html_file_path output_csv_path : string) (w : world) :
  (∀ f, fs w !! html_file_path = Some f → FS.readable f = false) →
  ∃ e, scrape_student_data parse html_file_path output_csv_path w = (w, Some e)
       ∧ (fs w !! html_file_path = None → e = FileNotFoundError html_file_path)
       ∧ (is_Some (fs w !! html_file_path) → e = PermissionError html_file_path).
Proof.
  intros H.
  assert (Hr : ∃ e, (read_html (fs w) html_file_path).2 = Raise e
     ∧ (fs w !! html_file_path = None → e = FileNotFoundError html_file_path)
     ∧ (is_Some (fs w !! html_file_path) → e = PermissionError html_file_path)).
  { unfold read_html, FS.read.
    destruct (fs w !! html_file_path) as [f|] eqn:Hf.
    - rewrite (H f eq_refl). eexists. split; [done|]. split; [done|done].
    - eexists. split; [done|]. split; [done|]. by intros [? ?]. }
  destruct Hr as (e & Hr & H1 & H2). exists e.
  by rewrite (scrape_read_fails _ _ _ _ _ Hr).
Qed.

Lemma unreadable_input_changes_nothing_witness :
  ∃ e, scrape_student_data (fun _ => Sample.page) "in.html" "out.csv" (World ∅ [])
       = (World ∅ [], Some e)
       ∧ (fs (World ∅ []) !! "in.html" = None → e = FileNotFoundError "in.html")
       ∧ (is_Some (fs (World ∅ []) !! "in.html") → e = PermissionError "in.html").
Proof.
  apply (unreadable_input_changes_nothing (fun _ => Sample.page)
           "in.html" "out.csv" (World ∅ [])).
  intros f Hf. discriminate Hf.
Defined.

(** X4.  When records were retained but the output file exists and is
    not writable, the run raises PermissionError for the output path,
    leaves every file as it was, and has printed the diagnostics of the
    skipped rows but no report. *)
Theorem unwritable_output_is_left_alone (parse : pystr → Soup.PageElement)
    (html_file_path output_csv_path : string) (w : world) (html : pystr)
    (f : FS.file) :
  (read_html (fs w) html_file_path).2 = Ok html →
  (extract_rows (student_rows (parse html)) ([], [])).1 ≠ [] →
  fs w !! output_csv_path = Some f → FS.writable f = false →
  scrape_student_data parse html_file_path output_csv_path w
  = (World (fs w)
       (stdout w ++ (extract_rows (student_rows (parse html)) ([], [])).2),
     Some (PermissionError output_csv_path)).
Proof.
  intros Hr Hs Hf Hw. rewrite (scrape_after_read _ _ _ _ _ Hr).
  unfold run_outcome. destruct (extract_rows _ _).1; [done|].
  unfold FS.open_w. by rewrite Hf, Hw.
Qed.

Lemma unwritable_output_is_left_alone_witness :
  scrape_student_data (fun _ => Sample.page) "in.html" "in.html"
    (World {[ "in.html"%string := FS.File true false Sample.html_bytes ]} [])
  = (World {[ "in.html"%string := FS.File true false Sample.html_bytes ]}
       ([] ++ (extract_rows (student_rows Sample.page) ([], [])).2),
     Some (PermissionError "in.html")).
Proof.
  refine (unwritable_output_is_left_alone (fun _ => Sample.page)
            "in.html" "in.html"
            (World {[ "in.html"%string := FS.File true false Sample.html_bytes ]} [])
            (py "<tr>") (FS.File true false Sample.html_bytes) _ _ _ _).
  - vm_compute. reflexivity.
  - vm_compute. discriminate.
  - reflexivity.
  - reflexivity.
Defined.



(** X6.  Writing stops at the first line that cannot be encoded: the file
    gains the bytes of the lines before it, none of that line or of the
    lines after it, and the line's exception is raised. *)
Theorem write_stops_at_first_bad_line (fs : FS.filesystem) (path : string)
    (f : FS.file) (good rest : list pystr) (bad : pystr) (e : exception) :
  fs !! path = Some f →
  Forall encodable good → Codec.utf8_encode bad = Raise e →
  ∃ bytes,
    Codec.utf8_encode (concat good) = Ok bytes
    ∧ write_lines fs path (good ++ bad :: rest)
      = (<[path := FS.File (FS.readable f) (FS.writable f) (FS.data f ++ bytes)]> fs,
         Some e).
Proof.
  intros Hf Hg Hb. destruct (encoded_stops good rest bad e Hg Hb) as (bytes & H1 & H2).
  exists bytes. split; [done|]. by rewrite (write_lines_encoded _ _ _ _ Hf), H2.
Qed.

Lemma write_stops_at_first_bad_line_witness :
  ∃ bytes,
    Codec.utf8_encode (concat [Csv.format_row fieldnames]) = Ok bytes
    ∧ write_lines {[ "out.csv"%string := FS.File true true [] ]} "out.csv"
        ([Csv.format_row fieldnames]
         ++ Csv.format_row (row_values Sample.surrogate_id) :: [])
      = (<["out.csv"%string :=
             FS.File (FS.readable (FS.File true true []))
               (FS.writable (FS.File true true []))
               (FS.data (FS.File true true []) ++ bytes)]>
           {[ "out.csv"%string := FS.File true true [] ]},
         Some (UnicodeEncodeError (py "utf-8") 0xD800)).
Proof.
  apply (write_stops_at_first_bad_line
           {[ "out.csv"%string := FS.File true true [] ]} "out.csv"
           (FS.File true true []) [Csv.format_row fieldnames] []
           (Csv.format_row (row_values Sample.surrogate_id))
           (UnicodeEncodeError (py "utf-8") 0xD800)).
  - reflexivity.
  - unfold encodable. compute_done.
  - vm_compute. reflexivity.
Defined.

Lemma report_after_heading (students : list student) (path : string) (n : nat) :
  report students path !! (4 + n)%nat
  = (imap (fun i s => preview_line (S i) s) (take 5 students)
     ++ (if bool_decide (5 < length students)%nat
         then [py "... and " ++ decimal (length students - 5)
               ++ py " more students"]
         else [])) !! n.
Proof.
  unfold report. rewrite lookup_app_r by (simpl; lia).
  f_equal. simpl. lia.
Qed.

(** X7.  The report has four heading lines, the first giving the number
    of records, then one preview line for each of the first five
    records, numbered from 1, and a last line counting the remaining
    records exactly when there are more than five. *)
Theorem report_lines (students : list student) (output_csv_path : string) :
  length (report students output_csv_path)
  = (4 + min 5 (length students)
     + (if bool_decide (5 < length students) then 1 else 0))%nat
  ∧ head (report students output_csv_path)
    = Some (py "Successfully scraped " ++ decimal (length students)
            ++ py " students")
  ∧ (∀ i s, (i < 5)%nat → students !! i = Some s →
       report students output_csv_path !! (4 + i)%nat
       = Some (preview_line (S i) s))
  ∧ (∀ line, report students output_csv_path
             !! (4 + min 5 (length students))%nat = Some line →
       (5 < length students)%nat
       ∧ line = py "... and " ++ decimal (length students - 5)
                ++ py " more students").
Proof.
  split; [|split; [done|split]].
  - unfold report. rewrite !length_app, length_imap, length_take. cbn [length].
    destruct (bool_decide (5 < length students)); simpl; lia.
  - intros i s Hi Hs. rewrite report_after_heading, lookup_app_l.
    + rewrite list_lookup_imap, lookup_take_lt by done. by rewrite Hs.
    + rewrite length_imap, length_take. apply lookup_lt_Some in Hs. lia.
  - intros line. rewrite report_after_heading.
    rewrite lookup_app_r by (rewrite length_imap, length_take; lia).
    rewrite length_imap, length_take, Nat.sub_diag.
    destruct (bool_decide (5 < length students)) eqn:Hb; [|done].
    apply bool_decide_eq_true in Hb. by intros [= <-].
Qed.

(** X8.  Every record of the Output Table has a non-empty Student ID, and
    none of its four fields starts or ends with whitespace: each is left
    unchanged by [strip]. *)
Theorem records_are_stripped (rows : list Soup.PageElement) (out : list pystr) :
  Forall (fun s => student_id s ≠ []
                   ∧ Forall (fun v => PyStr.strip v = v) (row_values s))
    (extract_rows rows ([], out)).1.
Proof.
  destruct (extract_rows_students rows ([], out)) as (kept & -> & HF).
  cbn [fst app].
  assert (Hq : Forall (fun row => qualifies row = true)
                 (List.filter qualifies rows)).
  { apply List.Forall_forall. intros row H. apply filter_In in H. tauto. }
  revert Hq HF. generalize (List.filter qualifies rows) as qs.
  intros qs Hq HF. induction HF as [|row s qs kept Hs _ IH]; [constructor|].
  apply Forall_cons in Hq as [Hrow Hq]. constructor; [|by apply IH].
  apply qualifies_spec in Hrow as [H5 (cell & Hc & Hid)].
  destruct (extract_fields_Ok row H5) as (c1 & c2 & c3 & c4 & H1 & _ & _ & _ & E).
  rewrite Hs in E. injection E as ->. cbn [student_id row_values].
  rewrite H1 in Hc. injection Hc as <-. rewrite font_text_stripped in Hid.
  split; [done|]. repeat constructor; apply font_text_stripped.
Qed.

(** X9.  The loop prints exactly one diagnostic for each row of fewer than
    five cells, and records and diagnostics together never outnumber the
    rows. *)
Theorem one_diagnostic_per_short_row (rows : list Soup.PageElement) :
  length (extract_rows rows ([], [])).2
  = length (List.filter (fun row => length (cells_of row) <? 5)%nat rows)
  ∧ (length (extract_rows rows ([], [])).1
     + length (extract_rows rows ([], [])).2 ≤ length rows)%nat.
Proof.
  induction rows as [|row rows [IH1 IH2]]; [done|].
  rewrite extract_rows_cons, extract_rows_decompose. cbn [fst snd].
  rewrite !length_app. cbn [List.filter length].
  destruct (extract_fields_cases row) as [[H5 [s Hs]]|[H5 He]].
  - rewrite (loop_body_Ok _ _ _ Hs). cbn [fst snd length].
    destruct (Nat.ltb_spec (length (cells_of row)) 5); [lia|].
    split; [lia|]. destruct (bool_decide (student_id s = [])); simpl; lia.
  - rewrite (loop_body_Raise _ _ _ He). cbn [fst snd length app].
    destruct (Nat.ltb_spec (length (cells_of row)) 5); [|lia].
    simpl. lia.
Qed.

(** X10.  The loop treats each row on its own: the records and the
    diagnostics of two lists of rows taken one after the other are those
    of the first followed by those of the second. *)
Theorem extract_rows_of_concatenation (a b : list Soup.PageElement) :
  extract_rows (a ++ b) ([], [])
  = ((extract_rows a ([], [])).1 ++ (extract_rows b ([], [])).1,
     (extract_rows a ([], [])).2 ++ (extract_rows b ([], [])).2).
Proof. by rewrite extract_rows_app, extract_rows_decompose. Qed.

(** ** Whitespace *)

Lemma lstrip_all_space (s : pystr) :
  forallb PyStr.isspace s = true → PyStr.lstrip s = [].
Proof.
  induction s as [|c s IH]; simpl; [done|].
  intros [Hc Hs]%andb_true_iff. rewrite Hc. auto.
Qed.

Lemma strip_nil_iff (s : pystr) :
  PyStr.strip s = [] ↔ forallb PyStr.isspace s = true.
Proof.
  split.
  - intros H. destruct (strip_trimmed s) as (l & r & Hs & Hl & Hr & _).
    rewrite H in Hs. simpl in Hs. rewrite Hs, forallb_app, Hl, Hr. done.
  - intros H. unfold PyStr.strip. by rewrite (lstrip_all_space s H).
Qed.

(** X11.  For a row of at least five cells whose second cell holds a font
    element, the row is dropped exactly when the text of that element
    consists of whitespace only (the empty text included). *)
Theorem whitespace_id_is_dropped (row cell x : Soup.PageElement)
    (students : list student) (out : list pystr) :
  (5 ≤ length (cells_of row))%nat →
  cells_of row !! 1%nat = Some cell →
  Soup.find (py "font") cell = Some x →
  (loop_body (students, out) row).1 = students
  ↔ forallb PyStr.isspace (Soup.text x) = true.
Proof.
  intros H5 Hc Hx.
  destruct (extract_fields_Ok row H5) as (c1 & c2 & c3 & c4 & H1 & _ & _ & _ & E).
  rewrite Hc in H1. injection H1 as <-.
  rewrite (loop_body_Ok _ _ _ E). cbn [fst student_id].
  assert (Hft : font_text cell = PyStr.strip (Soup.text x)).
  { unfold font_text. by rewrite Hx. }
  rewrite <- strip_nil_iff, <- Hft.
  destruct (bool_decide (font_text cell = [])) eqn:Hb.
  - by apply bool_decide_eq_true in Hb.
  - apply bool_decide_eq_false in Hb. split; [|done].
    intros H. by apply snoc_neq in H.
Qed.

Lemma whitespace_id_is_dropped_witness :
  (loop_body ([], []) Sample.blank).1 = []
  ↔ forallb PyStr.isspace (Soup.text (Sample.font "   ")) = true.
Proof.
  refine (whitespace_id_is_dropped Sample.blank (Sample.td "   ")
            (Sample.font "   ") [] [] _ _ _).
  - vm_compute. lia.
  - reflexivity.
  - reflexivity.
Defined.

(** ** Newlines *)

Lemma translate_newlines_cons (c : N) (s : pystr) :
  Codec.translate_newlines (c :: s)
  = if (c =? 13)%N then
      10%N :: match s with
              | d :: s' =>
                  if (d =? 10)%N then Codec.translate_newlines s'
                  else Codec.translate_newlines s
              | [] => []
              end
    else c :: Codec.translate_newlines s.
Proof. reflexivity. Qed.

Lemma translate_newlines_no_CR (s : pystr) : 13%N ∉ Codec.translate_newlines s.
Proof.
  assert (H : ∀ n (s : pystr), (length s ≤ n)%nat →
                13%N ∉ Codec.translate_newlines s).
  { clear s. induction n as [|n IH]; intros [|c s] Hn; simpl in Hn;
      try (intros H; by apply elem_of_nil in H); [lia|].
    rewrite translate_newlines_cons.
    destruct (N.eqb_spec c 13) as [->|Hc].
    - intros [H|H]%elem_of_cons; [done|]. revert H.
      destruct s as [|d s]; [by intros ?%elem_of_nil|].
      destruct (d =? 10)%N; apply IH; simpl in *; lia.
    - intros [H|H]%elem_of_cons; [done|]. revert H. apply IH. lia. }
  by apply (H (length s)).
Qed.

Lemma translate_newlines_id (s : pystr) :
  13%N ∉ s → Codec.translate_newlines s = s.
Proof.
  induction s as [|c s IH]; [done|]. intros H.
  rewrite translate_newlines_cons.
  destruct (N.eqb_spec c 13) as [->|Hc]; [exfalso; apply H; by left|].
  rewrite IH; [done|]. intros Hs. apply H. by right.
Qed.

Lemma read_Ok_translated (fs : FS.filesystem) (path : string)
    (enc : Codec.encoding) (s : pystr) :
  FS.read fs path enc = Ok s →
  ∃ t, s = Codec.translate_newlines t.
Proof.
  unfold FS.read. destruct (fs !! path) as [f|]; [|done].
  destruct (FS.readable f); [|done].
  destruct (Codec.decode enc (FS.data f)) as [t|]; simpl; [|done].
  intros [= <-]. eauto.
Qed.

(** X12.  The text read from the input file holds no carriage return:
    the universal newline translation has replaced every CR LF and every
    lone CR by LF, and translating again changes nothing. *)
Theorem html_content_has_no_CR (fs : FS.filesystem) (html_file_path : string)
    (html_content : pystr) :
  (read_html fs html_file_path).2 = Ok html_content →
  (13%N ∉ html_content)
  ∧ Codec.translate_newlines html_content = html_content.
Proof.
  intros H.
  assert (Ht : ∃ t, html_content = Codec.translate_newlines t).
  { revert H. unfold read_html.
    destruct (FS.read fs html_file_path Codec.Windows1252)
      as [s|[m|enc b|enc c|p|p]] eqn:H1; cbn [snd]; try done.
    - intros [= <-]. by apply read_Ok_translated in H1.
    - apply read_Ok_translated. }
  destruct Ht as [t ->].
  split; [apply translate_newlines_no_CR|].
  apply translate_newlines_id, translate_newlines_no_CR.
Qed.

Lemma html_content_has_no_CR_witness :
  (13%N ∉ [0x41; 0x81; 0x0A; 0x0A; 0x42]%N)
  ∧ Codec.translate_newlines [0x41; 0x81; 0x0A; 0x0A; 0x42]%N
    = [0x41; 0x81; 0x0A; 0x0A; 0x42]%N.
Proof.
  refine (html_content_has_no_CR
            {[ "a.html"%string := FS.File true true [x41; x81; x0d; x0a; x0d; x42] ]}
            "a.html" [0x41; 0x81; 0x0A; 0x0A; 0x42]%N _).
  vm_compute. reflexivity.
Defined.

(** ** Bytes that the two encodings read alike *)

Lemma cp1252_decode_plain (bs : list byte) :
  Forall (fun b => (Byte.to_N b < 0x80)%N ∨ (0xA0 ≤ Byte.to_N b)%N) bs →
  Codec.cp1252_decode bs = Ok (Codec.latin1_decode bs).
Proof.
  induction 1 as [|b bs Hb _ IH]; [done|]. simpl.
  assert (Hd : Codec.cp1252_decode_byte b = Some (Byte.to_N b)).
  { unfold Codec.cp1252_decode_byte.
    destruct (N.ltb_spec (Byte.to_N b) 0x80); [done|].
    destruct (N.leb_spec 0xA0 (Byte.to_N b)); [done|]. lia. }
  by rewrite Hd, IH.
Qed.

(** X13.  For a readable input file with no byte from 0x80 to 0x9F the
    first read succeeds, no second read is made, every byte is read as
    the code point of its own number, and latin-1 would have read the
    same text. *)
Theorem plain_bytes_need_no_fallback (fs : FS.filesystem)
    (html_file_path : string) (f : FS.file) :
  fs !! html_file_path = Some f → FS.readable f = true →
  Forall (fun b => (Byte.to_N b < 0x80)%N ∨ (0xA0 ≤ Byte.to_N b)%N) (FS.data f) →
  read_html fs html_file_path
  = ([Codec.Windows1252],
     Ok (Codec.translate_newlines (map Byte.to_N (FS.data f))))
  ∧ FS.read fs html_file_path Codec.Latin1
    = FS.read fs html_file_path Codec.Windows1252.
Proof.
  intros Hf Hr Hb. unfold read_html, FS.read. rewrite Hf, Hr.
  cbn [Codec.decode]. rewrite (cp1252_decode_plain _ Hb). done.
Qed.

Lemma plain_bytes_need_no_fallback_witness :
  read_html Sample.files "in.html"
  = ([Codec.Windows1252],
     Ok (Codec.translate_newlines
           (map Byte.to_N (FS.data (FS.File true true Sample.html_bytes)))))
  ∧ FS.read Sample.files "in.html" Codec.Latin1
    = FS.read Sample.files "in.html" Codec.Windows1252.
Proof.
  refine (plain_bytes_need_no_fallback Sample.files "in.html"
            (FS.File true true Sample.html_bytes) _ _ _).
  - reflexivity.
  - reflexivity.
  - compute_done.
Defined.

(** ** The encoder, continued *)

Lemma utf8_encode_char_length (c : N) (bs : list byte) :
  Codec.utf8_encode_char c = Some bs → (1 ≤ length bs ≤ 4)%nat.
Proof.
  unfold Codec.utf8_encode_char.
  destruct (c <? 0x80)%N; [intros [= <-]; simpl; lia|].
  destruct (c <? 0x800)%N; [intros [= <-]; simpl; lia|].
  destruct (c <? 0x10000)%N.
  { destruct (Codec.is_surrogate c); [done|]. intros [= <-]; simpl; lia. }
  destruct (c <? 0x110000)%N; [|done]. intros [= <-]; simpl; lia.
Qed.

(** X14.  The UTF-8 encoding of the output succeeds exactly for strings
    without surrogates (and without numbers above U+10FFFF); it yields
    between one and four bytes per character, and when it fails the
    exception names a refused character of the string. *)
Theorem utf8_encode_accepts_scalars (s : pystr) :
  ((∃ bs, Codec.utf8_encode s = Ok bs) ↔ encodable s)
  ∧ (∀ bs, Codec.utf8_encode s = Ok bs →
       (length s ≤ length bs ≤ 4 * length s)%nat)
  ∧ (∀ e, Codec.utf8_encode s = Raise e →
       ∃ c, c ∈ s ∧ e = UnicodeEncodeError (py "utf-8") c
            ∧ ((0x110000 ≤ c)%N ∨ Codec.is_surrogate c = true)).
Proof.
  split; [split|split].
  - intros [bs H]. revert bs H. induction s as [|c s IH]; intros bs; [constructor|].
    simpl. destruct (Codec.utf8_encode_char c) as [b1|] eqn:Hc; [|done].
    destruct (Codec.utf8_encode s) as [r|]; simpl; [|done]. intros _.
    constructor; [|by eapply IH].
    assert (Hn : ¬ ((0x110000 ≤ c)%N ∨ Codec.is_surrogate c = true)).
    { intros Hbad. apply utf8_encode_char_None in Hbad. congruence. }
    split; [lia|]. destruct (Codec.is_surrogate c); [|done]. exfalso. auto.
  - apply utf8_encode_Ok.
  - induction s as [|c s IH]; intros bs; simpl.
    + intros [= <-]. simpl. lia.
    + destruct (Codec.utf8_encode_char c) as [b1|] eqn:Hc; [|done].
      destruct (Codec.utf8_encode s) as [r|]; simpl; [|done].
      intros [= <-]. rewrite length_app.
      apply utf8_encode_char_length in Hc. specialize (IH r eq_refl). lia.
  - intros e. apply utf8_encode_Raise_char.
Qed.

(** ** Nested elements *)

Lemma PageElement_children_ind (P : Soup.PageElement → Prop) :
  (∀ ty s, P (Soup.Str ty s)) →
  (∀ name attrs contents, Forall P contents → P (Soup.Tag name attrs contents)) →
  ∀ e, P e.
Proof.
  intros HS HT. fix IH 1. intros [ty s|name attrs contents]; [apply HS|].
  apply HT. induction contents as [|c cs IHcs]; constructor; [apply IH|apply IHcs].
Qed.

Lemma descendants_Tag (name : pystr) (attrs : gmap pystr Soup.attr_value)
    (contents : list Soup.PageElement) :
  Soup.descendants (Soup.Tag name attrs contents)
  = flat_map (fun c => c :: Soup.descendants c) contents.
Proof.
  induction contents as [|c cs IH]; [done|].
  simpl in *. by rewrite IH.
Qed.

Lemma descendants_trans (e x y : Soup.PageElement) :
  x ∈ Soup.descendants e → y ∈ Soup.descendants x → y ∈ Soup.descendants e.
Proof.
  revert x y. induction e as [ty s|name attrs contents IH]
    using PageElement_children_ind; intros x y Hx Hy.
  - by apply elem_of_nil in Hx.
  - rewrite descendants_Tag in *.
    apply list_elem_of_In, in_flat_map in Hx as (c & Hc & Hx).
    apply list_elem_of_In, in_flat_map. exists c. split; [done|].
    apply list_elem_of_In. apply list_elem_of_In in Hx.
    apply elem_of_cons in Hx as [->|Hx]; [by right|].
    right. rewrite Forall_forall in IH.
    eapply (IH c); [by apply list_elem_of_In|exact Hx|exact Hy].
Qed.

Lemma elem_of_find_all (name : pystr) (attrs : list (pystr * Soup.criterion))
    (e x : Soup.PageElement) :
  x ∈ Soup.find_all name attrs e
  ↔ x ∈ Soup.descendants e ∧ Soup.search_tag name attrs x = true.
Proof.
  unfold Soup.find_all. by rewrite list_elem_of_In, filter_In, <- list_elem_of_In.
Qed.

(** X15.  [find_all] searches all descendants: every cell of a row nested
    inside another row is also a cell of the outer row, and every cell
    is a [td] element. *)
Theorem nested_cells_are_cells (row inner cell : Soup.PageElement) :
  inner ∈ Soup.descendants row →
  cell ∈ cells_of inner →
  cell ∈ cells_of row ∧ is_tag (py "td") cell.
Proof.
  unfold cells_of. rewrite !elem_of_find_all. intros Hi [Hc Ht].
  split; [split; [by eapply descendants_trans|done]|].
  by apply search_tag_name.
Qed.



Lemma nested_cells_are_cells_witness :
  Sample.td "a" ∈ cells_of Nested.outer ∧ is_tag (py "td") (Sample.td "a").
Proof.
  refine (nested_cells_are_cells Nested.outer Nested.inner (Sample.td "a") _ _).
  - vm_compute. apply list_elem_of_In. do 5 right. left. reflexivity.
  - vm_compute. apply list_elem_of_In. left. reflexivity.
Defined.


(** X16.  The program first prints the two paths and a rule of 80
    dashes, ahead of everything else it prints; it changes no file other
    than students_data.csv; and when faculty_acad_contentFrame.html is
    missing it ends with FileNotFoundError for that path. *)
Theorem main_prints_paths_first (parse : pystr → Soup.PageElement) (w : world) :
  (∃ added,
     stdout (main parse w).1
     = stdout w
       ++ [ py "Reading HTML file: faculty_acad_contentFrame.html";
            py "Output CSV file: students_data.csv";
            concat (replicate 80 (py "-")) ]
       ++ added)
  ∧ (∀ path, path ≠ "students_data.csv"%string →
       fs (main parse w).1 !! path = fs w !! path)
  ∧ (fs w !! "faculty_acad_contentFrame.html"%string = None →
     (main parse w).2
     = Some (FileNotFoundError "faculty_acad_contentFrame.html")).
Proof.
  unfold main.
  set (i := "faculty_acad_contentFrame.html"%string).
  set (o := "students_data.csv"%string).
  set (lines := [py "Reading HTML file: " ++ py i; py "Output CSV file: " ++ py o;
                 concat (replicate 80 (py "-"))]).
  change [py "Reading HTML file: faculty_acad_contentFrame.html";
          py "Output CSV file: students_data.csv";
          concat (replicate 80 (py "-"))] with lines.
  set (w' := World (fs w) (stdout w ++ lines)).
  destruct (read_html (fs w') i).2 as [html|e] eqn:Hr.
  - rewrite (scrape_after_read _ _ _ _ _ Hr). unfold run_outcome.
    split; [|split].
    + destruct (extract_rows _ _).1.
      { eexists. cbn [fst stdout w']. by rewrite <- app_assoc. }
      destruct (FS.open_w (fs w') o);
        eexists; cbn [fst stdout w']; by rewrite <- app_assoc.
    + intros path Hp. destruct (extract_rows _ _).1; [done|].
      destruct (FS.open_w (fs w') o); [|done].
      cbn [fst fs w']. by rewrite lookup_insert_ne.
    + intros Hn. exfalso. revert Hr. unfold read_html, FS.read.
      cbn [fs w']. by rewrite Hn.
  - rewrite (scrape_read_fails _ _ _ _ _ Hr). split; [|split].
    + exists []. cbn [fst stdout w']. by rewrite app_nil_r.
    + done.
    + intros Hn. cbn [snd]. revert Hr. unfold read_html, FS.read.
      cbn [fs w']. rewrite Hn. cbn [snd]. by intros [= <-].
Qed.
